(** * Life Guide AI: session state, interaction journal and reminder gate

    A shallow embedding of [life_guide_scripture.py].  The script is a
    Streamlit page: every user interaction re-runs [main] against the
    session state kept in [st.session_state].  The embedding threads that
    session state explicitly, records what the page shows (toasts,
    warnings, the requests sent to collaborators) in an event log, and
    takes the answers of the outside world (clock, HTTP, file system,
    the generative model, the widgets) from an environment record.

    Python [str] values are modelled as [string]; [lower], slicing and
    [in] are the character-wise operations, which agree with Python's on
    ASCII text.  Python [int] is [Z]. *)

From Stdlib Require Import String Ascii List ZArith Bool Arith Lia DecimalString.
Import ListNotations.

Local Open Scope list_scope.
Local Open Scope string_scope.

(** ** Python string operations used by the script *)

Module PyStr.

(** [c.lower()] on one character: the letters A-Z move to a-z. *)
Definition lower_char (c : ascii) : ascii :=
  let n := nat_of_ascii c in
  if (65 <=? n)%nat && (n <=? 90)%nat then ascii_of_nat (n + 32) else c.

(** [s.lower()] *)
Fixpoint lower (s : string) : string :=
  match s with
  | EmptyString => EmptyString
  | String c s' => String (lower_char c) (lower s')
  end.

(** [s.startswith(p)], the test [in] repeats at every position. *)
Fixpoint startswith (p s : string) : bool :=
  match p, s with
  | EmptyString, _ => true
  | String _ _, EmptyString => false
  | String a p', String b s' => Ascii.eqb a b && startswith p' s'
  end.

(** [sub in s] on strings: [sub] occurs in [s] at some position. *)
Fixpoint str_in (sub s : string) : bool :=
  startswith sub s ||
  match s with
  | EmptyString => false
  | String _ s' => str_in sub s'
  end.

(** [s[:n]] for a non-negative [n]. *)
Fixpoint take (n : nat) (s : string) : string :=
  match n, s with
  | O, _ => EmptyString
  | S _, EmptyString => EmptyString
  | S n', String c s' => String c (take n' s')
  end.

(** Truthiness of a string: [if s:] holds for the non-empty ones. *)
Definition truthy (s : string) : bool :=
  match s with
  | EmptyString => false
  | String _ _ => true
  end.

(** [", ".join(xs)] *)
Fixpoint join (sep : string) (xs : list string) : string :=
  match xs with
  | [] => EmptyString
  | [x] => x
  | x :: rest => x ++ sep ++ join sep rest
  end.

(** The mathematical notion [str_in] decides. *)
Definition Substring (sub s : string) : Prop :=
  exists pre post, s = pre ++ sub ++ post.

End PyStr.

(** ** The faith catalogue *)

Record FaithInfo := mkFaithInfo {
  url : string;
  description : string
}.

(** [FAITH_BACKGROUNDS]: a [dict] literal, which iterates in the order its
    keys are written, so it is kept as an association list. *)
Definition FAITH_BACKGROUNDS : list (string * FaithInfo) :=
  [ ("Hinduism",
     mkFaithInfo
       "https://images.unsplash.com/photo-1599092027257-28b80e0d9a6b?auto=format&fit=crop&w=1200&q=80"
       "🕉️ Sacred Mandala & Spiritual Patterns");
    ("Christianity",
     mkFaithInfo
       "https://images.unsplash.com/photo-1559327615-cd4628902d4a?auto=format&fit=crop&w=1200&q=80"
       "✝️ Light & Serenity");
    ("Islam",
     mkFaithInfo
       "https://images.unsplash.com/photo-1529333166437-7750a6dd5a70?auto=format&fit=crop&w=1200&q=80"
       "☪️ Islamic Geometric Patterns");
    ("Buddhism",
     mkFaithInfo
       "https://images.unsplash.com/photo-1465101162946-4377e57745c3?auto=format&fit=crop&w=1200&q=80"
       "☸️ Peaceful Zen Garden");
    ("Judaism",
     mkFaithInfo
       "https://images.unsplash.com/photo-1606148162298-69e1f7a47c0c?auto=format&fit=crop&w=1200&q=80"
       "✡️ Star of David & Heritage");
    ("Sikhism",
     mkFaithInfo
       "https://images.unsplash.com/photo-1506744038136-46273834b3fb?auto=format&fit=crop&w=1200&q=80"
       "☬ Golden Temple Inspired");
    ("Spiritualism",
     mkFaithInfo
       "https://images.unsplash.com/photo-1506905925346-21bda4d32df4?auto=format&fit=crop&w=1200&q=80"
       "✨ Cosmic & Spiritual Energy");
    ("Taoism",
     mkFaithInfo
       "https://images.unsplash.com/photo-1506126613408-eca07ce68773?auto=format&fit=crop&w=1200&q=80"
       "☯️ Yin-Yang Balance");
    ("Atheism",
     mkFaithInfo
       "https://images.unsplash.com/photo-1519904981063-b0cf448d479e?auto=format&fit=crop&w=1200&q=80"
       "🌌 Universe & Nature") ].

(** [FAITH_BACKGROUNDS.keys()] *)
Definition faith_keys : list string := map fst FAITH_BACKGROUNDS.

(** [FAITH_BACKGROUNDS[key]]; [None] stands for [KeyError]. *)
Fixpoint dict_get {V : Type} (d : list (string * V)) (key : string) : option V :=
  match d with
  | [] => None
  | (k, v) :: rest => if String.eqb k key then Some v else dict_get rest key
  end.

(** The test of the scripture loop in [main]:
    [faith.lower() in faith_key.lower() or faith_key.lower() in faith.lower()]. *)
Definition faith_matches (faith faith_key : string) : bool :=
  PyStr.str_in (PyStr.lower faith) (PyStr.lower faith_key)
  || PyStr.str_in (PyStr.lower faith_key) (PyStr.lower faith).

(** ** Session state *)

(** One element of [st.session_state.user_data]: the dict appended by
    [main] after a successful exchange. *)
Module Entry.
Record t := mk {
  faith : string;
  path : string;
  trouble : string;
  response : string;
  timestamp : string
}.
End Entry.

(** [st.session_state.user_preferences] *)
Module Prefs.
Record t := mk {
  faith : string;
  favorite_path : string
}.
End Prefs.

(** [st.session_state], with the keys the script initialises and the two
    widget keys the Clear button assigns. *)
Record SessionState := mkState {
  user_data : list Entry.t;
  user_preferences : Prefs.t;
  reminder_triggered : bool;
  notification_counter : Z;
  background_image : option string;
  custom_bg_path : option string;
  current_bg_type : string;
  faith_input : string;
  trouble_input : string
}.

(** The state a session starts from (lines 74-96). *)
Definition initial_state : SessionState :=
  mkState [] (Prefs.mk "" "Find Help") false 0 None None "default" "" "".

Definition set_user_data (v : list Entry.t) (s : SessionState) : SessionState :=
  mkState v (user_preferences s) (reminder_triggered s) (notification_counter s)
    (background_image s) (custom_bg_path s) (current_bg_type s)
    (faith_input s) (trouble_input s).

Definition set_user_preferences (v : Prefs.t) (s : SessionState) : SessionState :=
  mkState (user_data s) v (reminder_triggered s) (notification_counter s)
    (background_image s) (custom_bg_path s) (current_bg_type s)
    (faith_input s) (trouble_input s).

Definition set_reminder_triggered (v : bool) (s : SessionState) : SessionState :=
  mkState (user_data s) (user_preferences s) v (notification_counter s)
    (background_image s) (custom_bg_path s) (current_bg_type s)
    (faith_input s) (trouble_input s).

Definition set_notification_counter (v : Z) (s : SessionState) : SessionState :=
  mkState (user_data s) (user_preferences s) (reminder_triggered s) v
    (background_image s) (custom_bg_path s) (current_bg_type s)
    (faith_input s) (trouble_input s).

Definition set_custom_bg_path (v : option string) (s : SessionState) : SessionState :=
  mkState (user_data s) (user_preferences s) (reminder_triggered s)
    (notification_counter s) (background_image s) v (current_bg_type s)
    (faith_input s) (trouble_input s).

Definition set_current_bg_type (v : string) (s : SessionState) : SessionState :=
  mkState (user_data s) (user_preferences s) (reminder_triggered s)
    (notification_counter s) (background_image s) (custom_bg_path s) v
    (faith_input s) (trouble_input s).

Definition set_form_inputs (f t : string) (s : SessionState) : SessionState :=
  mkState (user_data s) (user_preferences s) (reminder_triggered s)
    (notification_counter s) (background_image s) (custom_bg_path s)
    (current_bg_type s) f t.

(** [user_preferences["faith"] = v] and [user_preferences["favorite_path"] = v] *)
Definition set_pref_faith (v : string) (s : SessionState) : SessionState :=
  set_user_preferences (Prefs.mk v (Prefs.favorite_path (user_preferences s))) s.

Definition set_pref_favorite_path (v : string) (s : SessionState) : SessionState :=
  set_user_preferences (Prefs.mk (Prefs.faith (user_preferences s)) v) s.

(** ** What a run shows and asks of its collaborators

    The log keeps the messages a run shows and the requests it sends out.
    Layout calls (columns, dividers, subheaders, spinners) and the text of
    the style sheets leave no event; the answer of the model is logged as
    the text itself, without the box drawn around it. *)

Inductive Event :=
| Toast (text icon : string)          (* st.toast *)
| Warning (text : string)             (* st.warning *)
| Info (text : string)                (* st.info, st.sidebar.info *)
| Error (text : string)               (* st.error *)
| Balloons                            (* st.balloons *)
| Markdown (text : string)            (* st.markdown of page text *)
| BackgroundCss (mime data : string)  (* st.markdown of a background style *)
| Write (text : string)               (* st.write, st.sidebar.write *)
| Caption (text : string)             (* st.caption, st.sidebar.caption *)
| Expander (title : string)           (* st.sidebar.expander *)
| HttpGet (image_url : string)        (* requests.get *)
| OpenRead (image_path : string)      (* open(path, "rb") *)
| OpenWrite (file_path : string)      (* open(path, "wb") *)
| GenerateContent (prompt : string)   (* model.generate_content *)
| Sleep
| Rerun.                              (* st.rerun *)

(** Outcome of [requests.get(url, timeout=10)]. *)
Inductive HttpResult :=
| Response (status_code : Z) (content : string) (content_type : option string)
| HttpRaises (message : string).

(** Outcome of opening and reading a file. *)
Inductive FileResult :=
| FileBytes (data : string)
| FileRaises (message : string).

(** Outcome of [model.generate_content(prompt)] followed by [.text]. *)
Inductive GenResult :=
| GenText (text : string)
| GenRaises (message : string).

(** The collaborators of one run. *)
Record Env := mkEnv {
  now_hour : Z;                          (* datetime.now().hour *)
  now_isoformat : string;                (* datetime.now().isoformat() *)
  random_choice : nat;                   (* index picked by random.choice *)
  requests_get : string -> HttpResult;
  open_rb : string -> FileResult;
  path_exists : string -> bool;          (* os.path.exists *)
  path_suffix : string -> string;        (* Path(p).suffix *)
  b64encode : string -> string;          (* base64.b64encode(..).decode() *)
  generate_content : string -> GenResult
}.

(** The values the widgets return on one run. *)
Record Widgets := mkWidgets {
  bg_option : string;
  selected_faith : string;
  apply_scripture_btn : bool;
  uploaded_file : option string;         (* uploaded_file.name *)
  local_path : string;
  load_local_btn : bool;
  sidebar_faith : string;
  sidebar_favorite_path : string;
  remember_preferences : bool;
  enable_reminders : bool;
  reminder_frequency : string;
  faith : string;
  path : string;
  trouble : string;
  save_prefs : bool;
  seek_guidance : bool;
  auto_bg : bool;
  clear_form : bool
}.

(** ** The monad of a run: session state, event log, early stop *)

Inductive Result (A : Type) :=
| Ok (a : A)
| Stop (why : string).   (* st.rerun() or an exception nobody catches *)

Arguments Ok {A} a.
Arguments Stop {A} why.

Definition M (A : Type) : Type := SessionState -> Result A * SessionState * list Event.

Definition ret {A} (a : A) : M A := fun s => (Ok a, s, []).

Definition bind {A B} (m : M A) (k : A -> M B) : M B :=
  fun s =>
    match m s with
    | (Ok a, s1, log1) =>
        match k a s1 with
        | (r, s2, log2) => (r, s2, (log1 ++ log2)%list)
        end
    | (Stop why, s1, log1) => (Stop why, s1, log1)
    end.

Definition get : M SessionState := fun s => (Ok s, s, []).
Definition modify (f : SessionState -> SessionState) : M unit := fun s => (Ok tt, f s, []).
Definition emit (e : Event) : M unit := fun s => (Ok tt, s, [e]).
Definition stop {A} (why : string) : M A := fun s => (Stop why, s, []).

Declare Scope run_scope.
Delimit Scope run_scope with run.
Notation "x <- m ;; k" := (bind m (fun x => k))
  (at level 61, m at next level, right associativity) : run_scope.
Notation "m ;; k" := (bind m (fun _ => k))
  (at level 61, right associativity) : run_scope.
Local Open Scope run_scope.

(** Projections of a finished run. *)
Definition result_of {A} (r : Result A * SessionState * list Event) : Result A := fst (fst r).
Definition state_of {A} (r : Result A * SessionState * list Event) : SessionState := snd (fst r).
Definition log_of {A} (r : Result A * SessionState * list Event) : list Event := snd r.

(** ** The script's functions *)

(** The built-in [reversed(list)] iterator: it keeps an index into the list
    it was made from and reads that list again at every step. *)
Module ReverseIter.

(** [reversed(l)]: the index of the last element, [-1] for an empty list. *)
Definition reversed {A} (l : list A) : Z := Z.of_nat (length l) - 1.

(** [next(it)] against the list as it is now: the element and the next
    index, or [None] for [StopIteration]. *)
Definition next {A} (l : list A) (i : Z) : option (A * Z) :=
  if (0 <=? i)%Z && (i <? Z.of_nat (length l))%Z then
    match nth_error l (Z.to_nat i) with
    | Some x => Some (x, (i - 1)%Z)
    | None => None
    end
  else None.

(** Everything the iterator yields from index [i] on, the list left alone. *)
Fixpoint drain {A} (fuel : nat) (l : list A) (i : Z) : list A :=
  match fuel with
  | O => []
  | S fuel' =>
      match next l i with
      | Some (x, i') => x :: drain fuel' l i'
      | None => []
      end
  end.

(** [list(reversed(l))] *)
Definition to_list {A} (l : list A) : list A :=
  drain (S (length l)) l (reversed l).

End ReverseIter.

(** [int] to its decimal text, as an f-string prints it. *)
Definition str_of_Z (z : Z) : string := DecimalString.NilZero.string_of_int (Z.to_int z).

(** The concern and guidance snippets of the history panel (lines 396, 399):
    [entry['trouble'][:150]] and [entry['response'][:300]], each followed
    by three dots. *)
Definition concern_snippet (entry : Entry.t) : string :=
  PyStr.take 150 (Entry.trouble entry) ++ "...".

Definition guidance_snippet (entry : Entry.t) : string :=
  PyStr.take 300 (Entry.response entry) ++ "...".

(** [user_data.append(entry)] *)
Definition append_entry (entry : Entry.t) (s : SessionState) : SessionState :=
  set_user_data (user_data s ++ [entry])%list s.

Definition reminder_messages : list string :=
  [ "🌙 Remember, seeking guidance is a sign of strength.";
    "✨ Take a moment to reflect on your spiritual journey.";
    "🕊️ Peace begins within. Breathe deeply and be present.";
    "💭 Your thoughts are valid. Consider sharing them with your guide.";
    "🙏 May wisdom and compassion guide your path today." ].

Definition reminder_hours : list Z := [9; 12; 15; 18; 21]%Z.

(** [x in xs] on a list of integers. *)
Definition Z_in (x : Z) (xs : list Z) : bool := existsb (Z.eqb x) xs.

Definition nl : string := String (ascii_of_nat 10) EmptyString.

(** The prompt [main] sends (lines 548-563). *)
Definition build_prompt (faith path trouble : string) : string :=
  "You are a wise, compassionate spiritual AI guide rooted in the " ++ faith ++ " tradition. " ++ nl ++
  "The seeker comes to you to " ++ PyStr.lower path ++ ". They share: " ++ trouble ++ nl ++
  nl ++
  "Provide deeply thoughtful, poetic, and comforting spiritual guidance that:" ++ nl ++
  "- Acknowledges their concern with empathy" ++ nl ++
  "- lighter language for the user to understand (write as if someone is helping you out on text messages) (you can use casual language)" ++ nl ++
  "- can use hinglish too" ++ nl ++
  "- Draws on wisdom from " ++ faith ++ " teachings if relevant" ++ nl ++
  "- Offers practical spiritual perspective and advice" ++ nl ++
  "- Is warm, non-judgmental, and uplifting" ++ nl ++
  "- Uses a calm, reflective tone" ++ nl ++
  "- Helps them see their situation with clarity and hope" ++ nl ++
  "- Try to correlate the problem with their life and provide a solution from " ++ faith ++ " scripture" ++ nl ++
  nl ++
  nl ++
  "Keep the response to 3-4 paragraphs.".

Section Script.

Variable env : Env.

(** [show_notification(message, notification_type, emoji)] *)
Definition show_notification (message notification_type emoji : string) : M unit :=
  modify (fun s => set_notification_counter (notification_counter s + 1) s) ;;
  if String.eqb notification_type "success" then
    emit (Toast ("✨ " ++ message) "🎉")
  else if String.eqb notification_type "warning" then
    emit (Toast ("⚠️ " ++ message) "⚠️")
  else if String.eqb notification_type "error" then
    emit (Toast ("❌ " ++ message) "❌")
  else
    emit (Toast (emoji ++ " " ++ message) "ℹ️").

(** [check_and_show_reminder()] *)
Definition check_and_show_reminder : M unit :=
  let current_hour := now_hour env in
  s <- get ;;
  if Z_in current_hour reminder_hours && negb (reminder_triggered s) then
    let message :=
      nth (random_choice env mod length reminder_messages) reminder_messages "" in
    emit Balloons ;;
    emit (Info ("🔔 **Daily Reminder:** " ++ message)) ;;
    modify (set_reminder_triggered true)
  else if negb (Z_in current_hour reminder_hours) then
    modify (set_reminder_triggered false)
  else
    ret tt.

(** [set_background_from_file(image_path)] *)
Definition set_background_from_file (image_path : string) : M bool :=
  emit (OpenRead image_path) ;;
  match open_rb env image_path with
  | FileBytes bytes =>
      let data := b64encode env bytes in
      let file_ext := PyStr.lower (path_suffix env image_path) in
      let mime_type :=
        if String.eqb file_ext ".jpg" || String.eqb file_ext ".jpeg" then "image/jpeg"
        else if String.eqb file_ext ".png" then "image/png"
        else if String.eqb file_ext ".gif" then "image/gif"
        else "image/jpeg" in
      emit (BackgroundCss mime_type data) ;;
      modify (set_current_bg_type "custom") ;;
      ret true
  | FileRaises e =>
      emit (Warning ("Error loading background: " ++ e)) ;;
      ret false
  end.

(** [set_background_from_url(image_url, faith_name)] *)
Definition set_background_from_url (image_url faith_name : string) : M bool :=
  emit (HttpGet image_url) ;;
  match requests_get env image_url with
  | Response status_code content content_type =>
      if (status_code =? 200)%Z then
        let data := b64encode env content in
        let mime_type :=
          match content_type with Some t => t | None => "image/jpeg" end in
        emit (BackgroundCss mime_type data) ;;
        modify (set_current_bg_type "faith") ;;
        ret true
      else
        emit (Warning "Failed to load background image from URL") ;;
        ret false
  | HttpRaises e =>
      emit (Warning ("Error loading background: " ++ e)) ;;
      ret false
  end.

(** [show_background_settings()] *)
Definition show_background_settings (w : Widgets) : M unit :=
  if String.eqb (bg_option w) "Scripture Theme" then
    emit (Write "**🕉️ Select Your Faith:**") ;;
    match dict_get FAITH_BACKGROUNDS (selected_faith w) with
    | None => stop "KeyError"
    | Some faith_info =>
        emit (Write ("_" ++ description faith_info ++ "_")) ;;
        if apply_scripture_btn w then
          let bg_url := url faith_info in
          ok <- set_background_from_url bg_url (selected_faith w) ;;
          if ok : bool then
            show_notification "Scripture background applied!" "success" "📿" ;;
            modify (set_pref_faith (selected_faith w))
          else
            show_notification "Failed to load scripture background" "error" "❌"
        else ret tt
    end
  else if String.eqb (bg_option w) "Upload Image" then
    match uploaded_file w with
    | Some name =>
        let temp_path := "temp_bg_" ++ name in
        emit (OpenWrite temp_path) ;;
        modify (set_custom_bg_path (Some temp_path)) ;;
        ok <- set_background_from_file temp_path ;;
        if ok : bool then
          show_notification "Background updated!" "success" "🎨"
        else
          modify (set_custom_bg_path None)
    | None => ret tt
    end
  else if String.eqb (bg_option w) "Local File Path" then
    if PyStr.truthy (local_path w) && load_local_btn w then
      if path_exists env (local_path w) then
        modify (set_custom_bg_path (Some (local_path w))) ;;
        ok <- set_background_from_file (local_path w) ;;
        if ok : bool then
          show_notification "Background loaded successfully!" "success" "🎨"
        else ret tt
      else
        emit (Warning ("File not found: " ++ local_path w)) ;;
        modify (set_custom_bg_path None)
    else ret tt
  else
    modify (set_custom_bg_path None) ;;
    modify (set_current_bg_type "default") ;;
    emit (Caption "Dark theme - Default appearance").

(** What the history panel writes for one entry (lines 390-400). *)
Definition show_entry (entry : Entry.t) : M unit :=
  emit (Expander ("📝 " ++ Entry.path entry ++ " - " ++ PyStr.take 10 (Entry.timestamp entry))) ;;
  emit (Write ("**Faith:** " ++ Entry.faith entry)) ;;
  emit (Write ("**Path:** " ++ Entry.path entry)) ;;
  emit (Write "**Your Concern:**") ;;
  emit (Write ("_" ++ concern_snippet entry ++ "_")) ;;
  emit (Write "**Guidance Received:**") ;;
  emit (Write (guidance_snippet entry)) ;;
  emit (Caption ("_Received at: " ++ Entry.timestamp entry ++ "_")).

(** [for idx, entry in enumerate(reversed(user_data), 1): body]: every step
    asks the iterator for its next element against the stored list. *)
Fixpoint for_reversed (fuel : nat) (i : Z) (body : Entry.t -> M unit) : M unit :=
  match fuel with
  | O => ret tt
  | S fuel' =>
      s <- get ;;
      match ReverseIter.next (user_data s) i with
      | Some (entry, i') => body entry ;; for_reversed fuel' i' body
      | None => ret tt
      end
  end.

(** [show_user_history()] *)
Definition show_user_history : M unit :=
  s <- get ;;
  match user_data s with
  | _ :: _ =>
      emit (Write ("**Total Sessions:** " ++ str_of_Z (Z.of_nat (length (user_data s))))) ;;
      for_reversed (S (length (user_data s))) (ReverseIter.reversed (user_data s)) show_entry
  | [] => emit (Info "Your spiritual journey begins now... 🌱")
  end.

(** [show_preferences()] *)
Definition show_preferences (w : Widgets) : M unit :=
  modify (set_pref_faith (sidebar_faith w)) ;;
  modify (set_pref_favorite_path (sidebar_favorite_path w)) ;;
  if remember_preferences w then
    show_notification "Preferences saved for this session!" "info" "💾"
  else ret tt.

(** [show_reminder_settings()] *)
Definition show_reminder_settings (w : Widgets) : M unit :=
  (if enable_reminders w then
     if String.eqb (reminder_frequency w) "Custom" then
       emit (Write "_Reminders will show at: 9 AM, 12 PM, 3 PM, 6 PM, 9 PM_")
     else ret tt
   else ret tt) ;;
  s <- get ;;
  if (notification_counter s >? 0)%Z then
    emit (Caption ("📬 Notifications shown: " ++ str_of_Z (notification_counter s)))
  else ret tt.

(** The [for faith_key in FAITH_BACKGROUNDS.keys(): ... break ... else: ...]
    loop of [main] (lines 520-527), over the keys still to visit. *)
Fixpoint scripture_loop (keys : list string) (faith : string) : M unit :=
  match keys with
  | [] => emit (Info ("💡 Available faiths: " ++ PyStr.join ", " faith_keys))
  | faith_key :: rest =>
      if faith_matches faith faith_key then
        match dict_get FAITH_BACKGROUNDS faith_key with
        | None => stop "KeyError"
        | Some faith_info =>
            let bg_url := url faith_info in
            ok <- set_background_from_url bg_url faith_key ;;
            if ok : bool then
              show_notification
                ("Scripture background applied for " ++ faith_key ++ "!") "success" "📿"
            else ret tt
        end
      else scripture_loop rest faith
  end.

(** [if auto_bg and faith: ...] (lines 519-527) *)
Definition main_scripture_bg (w : Widgets) : M unit :=
  if auto_bg w && PyStr.truthy (faith w) then scripture_loop faith_keys (faith w)
  else ret tt.

(** [if clear_form: ...] (lines 529-533); [st.rerun()] ends the run. *)
Definition main_clear_form (w : Widgets) : M unit :=
  if clear_form w then
    modify (set_form_inputs "" "") ;;
    show_notification "Form cleared!" "info" "✨" ;;
    emit Rerun ;;
    stop "rerun"
  else ret tt.

(** [if seek_guidance: ...] (lines 535-607) *)
Definition main_seek_guidance (w : Widgets) : M unit :=
  if seek_guidance w then
    if negb (PyStr.truthy (faith w)) || negb (PyStr.truthy (trouble w)) then
      show_notification "Please fill in all fields to receive guidance" "warning" "⚠️" ;;
      emit (Warning "🕊️ Please share your faith and your concern to receive personalized guidance.")
    else
      (if save_prefs w then modify (set_pref_faith (faith w)) else ret tt) ;;
      let prompt := build_prompt (faith w) (path w) (trouble w) in
      emit (GenerateContent prompt) ;;
      match generate_content env prompt with
      | GenText ai_response =>
          emit (Markdown "### ✨ Divine Whisper") ;;
          emit (Markdown ai_response) ;;
          modify (append_entry
                    (Entry.mk (faith w) (path w) (trouble w) ai_response (now_isoformat env))) ;;
          show_notification "Guidance received and saved!" "success" "✨" ;;
          emit Sleep ;;
          emit Balloons
      | GenRaises e =>
          show_notification ("Connection error: " ++ PyStr.take 50 e) "error" "❌" ;;
          emit (Error ("The spirits are troubled: " ++ e))
      end
  else ret tt.

(** [main()] *)
Definition main (w : Widgets) : M unit :=
  emit (Markdown "<h1>🌙 Life Guide AI</h1>") ;;
  emit (Markdown "<h4 class='subtitle'>By TejasWasan08 | Your Spiritual Companion</h4>") ;;
  check_and_show_reminder ;;
  show_background_settings w ;;
  show_preferences w ;;
  show_reminder_settings w ;;
  show_user_history ;;
  emit (Write "### 🙏 Share Your Spiritual Journey") ;;
  main_scripture_bg w ;;
  main_clear_form w ;;
  main_seek_guidance w ;;
  s <- get ;;
  emit (Caption ("🌍 Session active | 📊 Queries: "
                 ++ str_of_Z (Z.of_nat (length (user_data s)))
                 ++ " | Background: " ++ current_bg_type s)).

End Script.

(** The entry the scripture loop settles on for a typed faith: the first
    item of [FAITH_BACKGROUNDS], in the order of the literal, whose key
    passes [faith_matches]; [None] when the loop reaches its [else]. *)
Definition resolveByFreeText (faith : string) : option (string * FaithInfo) :=
  find (fun item => faith_matches faith (fst item)) FAITH_BACKGROUNDS.

(** What the loop does once it has settled on an item (lines 522-525). *)
Definition apply_resolved (env : Env) (item : string * FaithInfo) : M unit :=
  ok <- set_background_from_url env (url (snd item)) (fst item) ;;
  if ok : bool then
    show_notification
      ("Scripture background applied for " ++ fst item ++ "!") "success" "📿"
  else ret tt.

(** ** Observations on runs *)

(** The two ways the journal is read: [user_data] itself, in the order
    of the appends, and [reversed(user_data)] as the history panel
    traverses it. *)
Definition viewChronological (s : SessionState) : list Entry.t := user_data s.

Definition viewMostRecentFirst (s : SessionState) : list Entry.t :=
  ReverseIter.to_list (user_data s).

(** The events [show_entry] writes for one entry. *)
Definition entry_events (entry : Entry.t) : list Event :=
  [ Expander ("📝 " ++ Entry.path entry ++ " - " ++ PyStr.take 10 (Entry.timestamp entry));
    Write ("**Faith:** " ++ Entry.faith entry);
    Write ("**Path:** " ++ Entry.path entry);
    Write "**Your Concern:**";
    Write ("_" ++ concern_snippet entry ++ "_");
    Write "**Guidance Received:**";
    Write (guidance_snippet entry);
    Caption ("_Received at: " ++ Entry.timestamp entry ++ "_") ].

(** A run of the reminder check showed a reminder. *)
Definition is_reminder (e : Event) : bool :=
  match e with
  | Info _ => true
  | _ => false
  end.

Definition fired (log : list Event) : bool := existsb is_reminder log.

(** A run asked the generative model for text. *)
Definition is_generate (e : Event) : bool :=
  match e with
  | GenerateContent _ => true
  | _ => false
  end.

(** The environment with the clock showing hour [h]. *)
Definition at_hour (env : Env) (h : Z) : Env :=
  mkEnv h (now_isoformat env) (random_choice env) (requests_get env) (open_rb env)
    (path_exists env) (path_suffix env) (b64encode env) (generate_content env).

(** The reminder check run once per page refresh, at the given hours. *)
Fixpoint reminder_trace (env : Env) (hours : list Z) (s : SessionState)
  : list bool * SessionState :=
  match hours with
  | [] => ([], s)
  | h :: rest =>
      let r := check_and_show_reminder (at_hour env h) s in
      let '(fires, s') := reminder_trace env rest (state_of r) in
      (fired (log_of r) :: fires, s')
  end.

(** The reminder gate as the specification words it, with the hour of the
    last reminder as its state; kept apart from the code's gate to compare
    the two. *)
Module ReminderGateSpec.

Record ReminderState := mk { lastFiredHour : option Z }.

Definition scheduleHours : list Z := [9; 12; 15; 18; 21]%Z.

Definition is_hour (o : option Z) (h : Z) : bool :=
  match o with
  | Some x => (x =? h)%Z
  | None => false
  end.

Definition shouldFire (currentHour : Z) (state : ReminderState) : bool * ReminderState :=
  let member := Z_in currentHour scheduleHours in
  let fire := member && negb (is_hour (lastFiredHour state) currentHour) in
  (fire,
   if fire then mk (Some currentHour)
   else if negb member then mk None
   else state).

Fixpoint trace (hours : list Z) (state : ReminderState) : list bool * ReminderState :=
  match hours with
  | [] => ([], state)
  | h :: rest =>
      let '(fire, state') := shouldFire h state in
      let '(fires, final) := trace rest state' in
      (fire :: fires, final)
  end.

(** How the code's flag reads as a state of the specification. *)
Definition agrees (flag : bool) (state : ReminderState) : Prop :=
  flag = match lastFiredHour state with Some _ => true | None => false end.

End ReminderGateSpec.

(** ** Sample collaborators and inputs *)

(** Collaborators that all answer: the model returns [text], every fetch
    is a 200 response, every file exists and reads. *)
Definition env_answering (text : string) : Env :=
  mkEnv 10 "2025-03-01T10:15:00" 0
    (fun _ => Response 200 "bytes" (Some "image/png"))
    (fun _ => FileBytes "bytes")
    (fun _ => true)
    (fun _ => ".png")
    (fun b => b)
    (fun _ => GenText text).

(** Collaborators that all fail: the model raises, every fetch raises,
    every path exists but cannot be read. *)
Definition env_failing : Env :=
  mkEnv 10 "2025-03-01T10:15:00" 0
    (fun _ => HttpRaises "connection refused")
    (fun _ => FileRaises "[Errno 21] Is a directory")
    (fun _ => true)
    (fun _ => "")
    (fun b => b)
    (fun _ => GenRaises "quota exceeded").

(** The form as the seeker of the end-to-end scenario fills it, with the
    Seek Guidance button pressed. *)
Definition scenario_widgets : Widgets :=
  mkWidgets "Default (Dark)" "Hinduism" false None "" false
    "" "Find Help" true true "Every 3 hours"
    "Buddhism" "Seek Purpose" "I feel lost" true true false false.

(** The same form with the faith left empty and both buttons pressed. *)
Definition empty_faith_widgets : Widgets :=
  mkWidgets "Default (Dark)" "Hinduism" false None "" false
    "" "Find Help" true true "Every 3 hours"
    "" "Seek Purpose" "I feel lost" true true true false.

(** The sidebar asked to load the local path [/tmp], a directory. *)
Definition local_path_widgets : Widgets :=
  mkWidgets "Local File Path" "Hinduism" false None "/tmp" true
    "" "Find Help" true true "Every 3 hours"
    "" "Find Help" "" true false false false.

(** A stored entry whose concern is shorter than 150 characters. *)
Definition short_entry : Entry.t :=
  Entry.mk "Buddhism" "Seek Purpose" "I feel lost" "Breathe." "2025-03-01T10:15:00".

(** [c * n] for a one-character string [c]. *)
Fixpoint repeat_char (c : ascii) (n : nat) : string :=
  match n with
  | O => EmptyString
  | S n' => String c (repeat_char c n')
  end.

(** ** Relations between the state before and the state after a run *)

(** A way to compare the state a run starts from with the one it ends in,
    indexed by a budget that adds up along a sequence of steps. *)
Record Frame (R : nat -> SessionState -> SessionState -> Prop) : Prop := mkFrame {
  frame_refl : forall n s, R n s s;
  frame_add : forall n1 n2 a b c, R n1 a b -> R n2 b c -> R (n1 + n2) a c;
  frame_mono : forall n n' a b, n <= n' -> R n a b -> R n' a b
}.

(** Every run of [m] stays within [R n], whether it ends or stops early. *)
Definition within {A} (R : nat -> SessionState -> SessionState -> Prop)
  (n : nat) (m : M A) : Prop :=
  forall s, R n s (state_of (m s)).

(** No run of [m] logs an event that passes [p]. *)
Definition silent {A} (p : Event -> bool) (m : M A) : Prop :=
  forall s, existsb p (log_of (m s)) = false.

(** Every run of [m] stops early. *)
Definition stops {A} (m : M A) : Prop :=
  forall s, exists why, result_of (m s) = Stop why.

(** The notification counter went up by at most [n] and never down. *)
Definition counter_rises (n : nat) (s s' : SessionState) : Prop :=
  (notification_counter s <= notification_counter s' <= notification_counter s + Z.of_nat n)%Z.

(** The journal kept its entries and gained at most [n] at the end. *)
Definition journal_grows (n : nat) (s s' : SessionState) : Prop :=
  exists tail, user_data s' = (user_data s ++ tail)%list /\ length tail <= n.

(** The reminder flag is the one of the starting state. *)
Definition flag_kept (n : nat) (s s' : SessionState) : Prop :=
  reminder_triggered s' = reminder_triggered s.

(** The background type is one of the three names the script assigns. *)
Definition bg_type_known (s : SessionState) : Prop :=
  current_bg_type s = "default" \/ current_bg_type s = "custom" \/ current_bg_type s = "faith".

Definition bg_type_stays_known (n : nat) (s s' : SessionState) : Prop :=
  bg_type_known s -> bg_type_known s'.

Definition is_css (e : Event) : bool :=
  match e with
  | BackgroundCss _ _ => true
  | _ => false
  end.

Definition is_http_get (e : Event) : bool :=
  match e with
  | HttpGet _ => true
  | _ => false
  end.

Definition is_open_read (e : Event) : bool :=
  match e with
  | OpenRead _ => true
  | _ => false
  end.

Definition is_expander (e : Event) : bool :=
  match e with
  | Expander _ => true
  | _ => false
  end.

Definition is_toast (e : Event) : bool :=
  match e with
  | Toast _ _ => true
  | _ => false
  end.

(** The answer of a fetch is a response with status 200. *)
Definition is_200 (r : HttpResult) : bool :=
  match r with
  | Response status_code _ _ => (status_code =? 200)%Z
  | HttpRaises _ => false
  end.

(** A file could be opened and read. *)
Definition is_readable (r : FileResult) : bool :=
  match r with
  | FileBytes _ => true
  | FileRaises _ => false
  end.

(** The reminders a sequence of checks shows, told from the hours alone:
    a check fires when its hour is in the schedule and the one before it
    (at first, the flag) was not. *)
Fixpoint edge_fires (prev : bool) (hours : list Z) : list bool :=
  match hours with
  | [] => []
  | h :: rest =>
      (Z_in h reminder_hours && negb prev) :: edge_fires (Z_in h reminder_hours) rest
  end.

(** The sidebar with a scripture theme picked and its button pressed. *)
Definition sidebar_scripture_widgets : Widgets :=
  mkWidgets "Scripture Theme" "Buddhism" true None "" false
    "" "Find Help" false true "Every 3 hours"
    "" "Find Help" "" true false false false.

(** A run in which every button but Clear is pressed. *)
Definition busy_widgets : Widgets :=
  mkWidgets "Scripture Theme" "Taoism" true None "" false
    "Taoism" "Discover Peace" true true "Custom"
    "taoism" "Discover Peace" "I cannot sleep" true true true false.



(** * Properties *)

(** ** Strings *)

Module PyStrFacts.
Import PyStr.

Lemma startswith_spec (p s : string) :
  startswith p s = true <-> exists post, s = p ++ post.
Proof.
  revert s; induction p as [|a p IH]; intros s; simpl.
  - split; [intros _; exists s; reflexivity | reflexivity].
  - destruct s as [|b s].
    + split; [discriminate | intros [post H]; discriminate].
    + rewrite andb_true_iff, Ascii.eqb_eq, IH. split.
      * intros [-> [post ->]]. exists post. reflexivity.
      * intros [post H]. injection H as -> ->. split; [reflexivity | exists post; reflexivity].
Qed.

Lemma str_in_spec (sub s : string) :
  str_in sub s = true <-> Substring sub s.
Proof.
  unfold Substring. induction s as [|c s IH].
  - simpl. rewrite orb_false_r, startswith_spec. split.
    + intros [post H]. exists "", post. exact H.
    + intros [pre [post H]]. destruct pre; [exists post; exact H | discriminate].
  - simpl. rewrite orb_true_iff, startswith_spec, IH. split.
    + intros [[post H] | [pre [post H]]].
      * exists "", post. exact H.
      * exists (String c pre), post. simpl. rewrite H. reflexivity.
    + intros [pre [post H]]. destruct pre as [|d pre].
      * left. exists post. exact H.
      * right. simpl in H. injection H as _ H. exists pre, post. exact H.
Qed.

Lemma str_in_empty (s : string) : str_in "" s = true.
Proof. destruct s; reflexivity. Qed.

Lemma length_take (n : nat) (s : string) :
  String.length (take n s) = Nat.min n (String.length s).
Proof.
  revert s; induction n as [|n IH]; intros [|c s]; simpl; try reflexivity.
  rewrite IH. reflexivity.
Qed.

Lemma take_all (n : nat) (s : string) :
  String.length s <= n -> take n s = s.
Proof.
  revert s; induction n as [|n IH]; intros [|c s]; simpl; intros H;
    try reflexivity; try lia.
  rewrite IH by lia. reflexivity.
Qed.

Lemma take_prefix (n : nat) (s : string) :
  exists rest, s = take n s ++ rest.
Proof.
  revert s; induction n as [|n IH]; intros s.
  - exists s. reflexivity.
  - destruct s as [|c s]; [exists ""; reflexivity|].
    destruct (IH s) as [rest H]. exists rest. simpl. rewrite <- H. reflexivity.
Qed.

Lemma length_append (a b : string) :
  String.length (a ++ b) = String.length a + String.length b.
Proof. induction a as [|c a IH]; simpl; [reflexivity | rewrite IH; reflexivity]. Qed.

Lemma append_dots_neq (s : string) : s ++ "..." <> s.
Proof.
  intros H. apply (f_equal String.length) in H.
  rewrite length_append in H. simpl in H. lia.
Qed.

End PyStrFacts.

(** ** The scripture loop and its resolution *)

Section Resolution.

Lemma find_first {A} (p : A -> bool) (l : list A) (x : A) :
  find p l = Some x <->
  exists before after,
    l = (before ++ x :: after)%list /\ p x = true /\
    forall y, In y before -> p y = false.
Proof.
  induction l as [|a l IH]; simpl.
  - split; [discriminate|]. intros [before [after [H _]]].
    destruct before; discriminate.
  - destruct (p a) eqn:Ha.
    + split.
      * intros [= <-]. exists [], l. repeat split; [exact Ha | intros y []].
      * intros [before [after [H [Hx Hb]]]]. destruct before as [|b before].
        -- injection H as -> _. reflexivity.
        -- injection H as -> _. rewrite (Hb b (or_introl eq_refl)) in Ha. discriminate.
    + rewrite IH. split.
      * intros [before [after [-> [Hx Hb]]]]. exists (a :: before), after.
        repeat split; [exact Hx|]. intros y [<- | Hy]; [exact Ha | exact (Hb y Hy)].
      * intros [before [after [H [Hx Hb]]]]. destruct before as [|b before].
        -- injection H as -> _. rewrite Hx in Ha. discriminate.
        -- injection H as _ ->. exists before, after.
           repeat split; [exact Hx|]. intros y Hy. apply Hb. right. exact Hy.
Qed.

Lemma find_nothing {A} (p : A -> bool) (l : list A) :
  find p l = None <-> forall y, In y l -> p y = false.
Proof.
  induction l as [|a l IH]; simpl.
  - split; [intros _ y [] | reflexivity].
  - destruct (p a) eqn:Ha.
    + split; [discriminate|]. intros H. rewrite (H a (or_introl eq_refl)) in Ha. discriminate.
    + rewrite IH. split.
      * intros H y [<- | Hy]; [exact Ha | exact (H y Hy)].
      * intros H y Hy. apply H. right. exact Hy.
Qed.

Lemma faith_matches_spec (f key : string) :
  faith_matches f key = true <->
  PyStr.Substring (PyStr.lower key) (PyStr.lower f) \/
  PyStr.Substring (PyStr.lower f) (PyStr.lower key).
Proof.
  unfold faith_matches.
  rewrite orb_true_iff, !PyStrFacts.str_in_spec. tauto.
Qed.

(** The loop of [main] is the resolution followed by its application. *)
Lemma scripture_loop_resolves (env : Env) (f : string) (s : SessionState) :
  scripture_loop env faith_keys f s =
  match resolveByFreeText f with
  | Some item => apply_resolved env item s
  | None => emit (Info ("💡 Available faiths: " ++ PyStr.join ", " faith_keys)) s
  end.
Proof.
  unfold resolveByFreeText, faith_keys, FAITH_BACKGROUNDS.
  cbn [map fst find scripture_loop].
  repeat (destruct (faith_matches f _); [reflexivity|]).
  reflexivity.
Qed.

End Resolution.

(** C3. For every typed faith [f]: a key matches exactly when the
    lower-cased key occurs in the lower-cased [f] or the lower-cased [f]
    occurs in the lower-cased key; the nine keys are visited in the order
    of the literal, Hinduism first; the loop settles on the first matching
    item and on none exactly when no key matches; the item depends on [f]
    alone, whatever the session state and the collaborators; "hindu"
    resolves to the Hinduism item and "xyz" to none. *)
Theorem C3_resolve_by_free_text :
  (forall f key,
      faith_matches f key = true <->
      PyStr.Substring (PyStr.lower key) (PyStr.lower f) \/
      PyStr.Substring (PyStr.lower f) (PyStr.lower key))
  /\ map fst FAITH_BACKGROUNDS =
     [ "Hinduism"; "Christianity"; "Islam"; "Buddhism"; "Judaism";
       "Sikhism"; "Spiritualism"; "Taoism"; "Atheism" ]
  /\ (forall f item,
        resolveByFreeText f = Some item <->
        exists before after,
          FAITH_BACKGROUNDS = (before ++ item :: after)%list /\
          faith_matches f (fst item) = true /\
          forall earlier, In earlier before -> faith_matches f (fst earlier) = false)
  /\ (forall f,
        resolveByFreeText f = None <->
        forall item, In item FAITH_BACKGROUNDS -> faith_matches f (fst item) = false)
  /\ (forall env f s,
        scripture_loop env faith_keys f s =
        match resolveByFreeText f with
        | Some item => apply_resolved env item s
        | None => emit (Info ("💡 Available faiths: " ++ PyStr.join ", " faith_keys)) s
        end)
  /\ option_map fst (resolveByFreeText "hindu") = Some "Hinduism"
  /\ resolveByFreeText "hindu" = nth_error FAITH_BACKGROUNDS 0
  /\ resolveByFreeText "xyz" = None.
Proof.
  split; [exact faith_matches_spec|].
  split; [reflexivity|].
  split; [intros f item;
          exact (find_first (fun it => faith_matches f (fst it)) FAITH_BACKGROUNDS item)|].
  split; [intros f;
          exact (find_nothing (fun it => faith_matches f (fst it)) FAITH_BACKGROUNDS)|].
  split; [exact scripture_loop_resolves|].
  repeat split; vm_compute; reflexivity.
Qed.

(** ** The guidance request *)

Section Guidance.

Variable env : Env.

Lemma truthy_true (t : string) : t <> "" -> PyStr.truthy t = true.
Proof. destruct t; [intros H; contradiction H; reflexivity | reflexivity]. Qed.

Lemma truthy_false (t : string) : PyStr.truthy t = false <-> t = "".
Proof. destruct t; simpl; split; intros H; try reflexivity; discriminate. Qed.

(** What [show_notification] does to the state, whatever its kind. *)
Lemma show_notification_state (message kind emoji : string) (s : SessionState) :
  result_of (show_notification message kind emoji s) = Ok tt /\
  state_of (show_notification message kind emoji s) =
  set_notification_counter (notification_counter s + 1) s /\
  exists text icon, log_of (show_notification message kind emoji s) = [Toast text icon].
Proof.
  unfold show_notification, bind, modify, emit, result_of, state_of, log_of.
  destruct (String.eqb kind "success"); [|destruct (String.eqb kind "warning");
    [|destruct (String.eqb kind "error")]]; simpl; repeat split; eauto.
Qed.

(** The request with both fields filled, up to the answer of the model. *)
Lemma main_seek_guidance_filled (w : Widgets) (s : SessionState) :
  seek_guidance w = true -> faith w <> "" -> trouble w <> "" ->
  main_seek_guidance env w s =
  let s1 := if save_prefs w then set_pref_faith (faith w) s else s in
  let prompt := build_prompt (faith w) (path w) (trouble w) in
  match generate_content env prompt with
  | GenText ai_response =>
      (Ok tt,
       set_notification_counter (notification_counter s1 + 1)
         (append_entry
            (Entry.mk (faith w) (path w) (trouble w) ai_response (now_isoformat env)) s1),
       [ GenerateContent prompt; Markdown "### ✨ Divine Whisper"; Markdown ai_response;
         Toast ("✨ " ++ "Guidance received and saved!") "🎉"; Sleep; Balloons ])
  | GenRaises e =>
      (Ok tt,
       set_notification_counter (notification_counter s1 + 1) s1,
       [ GenerateContent prompt;
         Toast ("❌ " ++ ("Connection error: " ++ PyStr.take 50 e)) "❌";
         Error ("The spirits are troubled: " ++ e) ])
  end.
Proof.
  intros Hseek Hfaith Htrouble. unfold main_seek_guidance.
  rewrite Hseek, (truthy_true _ Hfaith), (truthy_true _ Htrouble).
  cbn [negb orb]. cbv zeta.
  destruct (generate_content env (build_prompt (faith w) (path w) (trouble w)));
    destruct (save_prefs w); reflexivity.
Qed.

End Guidance.

(** C1. A guidance request with a non-empty faith, a path and a non-empty
    concern, answered by the model with text [T], is handled to the end,
    appends exactly the entry (faith, path, concern, [T]) to the journal,
    so the journal holds one entry more, and raises the notification
    counter by exactly one. *)
Theorem C1_successful_guidance_appends_one_entry
  (env : Env) (w : Widgets) (s : SessionState) (T : string) :
  seek_guidance w = true ->
  faith w <> "" ->
  trouble w <> "" ->
  generate_content env (build_prompt (faith w) (path w) (trouble w)) = GenText T ->
  let r := main_seek_guidance env w s in
  result_of r = Ok tt /\
  user_data (state_of r) =
    (user_data s ++ [Entry.mk (faith w) (path w) (trouble w) T (now_isoformat env)])%list /\
  length (user_data (state_of r)) = length (user_data s) + 1 /\
  notification_counter (state_of r) = (notification_counter s + 1)%Z.
Proof.
  intros Hseek Hfaith Htrouble Hgen r. subst r.
  rewrite (main_seek_guidance_filled env w s Hseek Hfaith Htrouble).
  cbv zeta. rewrite Hgen. unfold result_of, state_of. cbn [fst snd].
  destruct (save_prefs w); cbn; rewrite ?length_app; cbn; repeat split; reflexivity.
Qed.

Lemma C1_scenario_witness :
  let r := main_seek_guidance (env_answering "Be still.") scenario_widgets initial_state in
  result_of r = Ok tt /\
  user_data (state_of r) =
    [Entry.mk "Buddhism" "Seek Purpose" "I feel lost" "Be still." "2025-03-01T10:15:00"] /\
  length (user_data (state_of r)) = 1 /\
  notification_counter (state_of r) = 1%Z.
Proof.
  apply (C1_successful_guidance_appends_one_entry
           (env_answering "Be still.") scenario_widgets initial_state "Be still.").
  - reflexivity.
  - discriminate.
  - discriminate.
  - reflexivity.
Defined.

(** C6. When the model raises on a guidance request, the error is caught
    (the run goes on) and shown as an error toast and an error message, the
    journal is left as it was, the notification counter goes up by exactly
    one, and the preferences are the prior ones except for the faith stored
    before the call when "Remember my faith preference" is ticked. *)
Theorem C6_provider_error_leaves_journal
  (env : Env) (w : Widgets) (s : SessionState) (e : string) :
  seek_guidance w = true ->
  faith w <> "" ->
  trouble w <> "" ->
  generate_content env (build_prompt (faith w) (path w) (trouble w)) = GenRaises e ->
  let r := main_seek_guidance env w s in
  result_of r = Ok tt /\
  In (Toast ("❌ " ++ ("Connection error: " ++ PyStr.take 50 e)) "❌") (log_of r) /\
  In (Error ("The spirits are troubled: " ++ e)) (log_of r) /\
  user_data (state_of r) = user_data s /\
  length (user_data (state_of r)) = length (user_data s) /\
  notification_counter (state_of r) = (notification_counter s + 1)%Z /\
  user_preferences (state_of r) =
    (if save_prefs w
     then Prefs.mk (faith w) (Prefs.favorite_path (user_preferences s))
     else user_preferences s) /\
  reminder_triggered (state_of r) = reminder_triggered s /\
  custom_bg_path (state_of r) = custom_bg_path s /\
  current_bg_type (state_of r) = current_bg_type s.
Proof.
  intros Hseek Hfaith Htrouble Hgen r. subst r.
  rewrite (main_seek_guidance_filled env w s Hseek Hfaith Htrouble).
  cbv zeta. rewrite Hgen. unfold result_of, state_of, log_of. cbn [fst snd].
  destruct (save_prefs w); cbn [In]; repeat split; auto.
Qed.

Lemma C6_failing_provider_witness :
  let r := main_seek_guidance env_failing scenario_widgets initial_state in
  result_of r = Ok tt /\
  In (Toast ("❌ " ++ ("Connection error: " ++ PyStr.take 50 "quota exceeded")) "❌") (log_of r) /\
  In (Error ("The spirits are troubled: " ++ "quota exceeded")) (log_of r) /\
  user_data (state_of r) = [] /\
  length (user_data (state_of r)) = 0 /\
  notification_counter (state_of r) = 1%Z /\
  user_preferences (state_of r) = Prefs.mk "Buddhism" "Find Help" /\
  reminder_triggered (state_of r) = false /\
  custom_bg_path (state_of r) = None /\
  current_bg_type (state_of r) = "default".
Proof.
  apply (C6_provider_error_leaves_journal
           env_failing scenario_widgets initial_state "quota exceeded").
  - reflexivity.
  - discriminate.
  - discriminate.
  - reflexivity.
Defined.

(** C10. A guidance request with an empty faith or an empty concern sends
    nothing to the model, leaves the journal as it was, and raises the
    notification counter by exactly one, for the warning toast. *)
Theorem C10_empty_field_skips_provider
  (env : Env) (w : Widgets) (s : SessionState) :
  seek_guidance w = true ->
  faith w = "" \/ trouble w = "" ->
  let r := main_seek_guidance env w s in
  result_of r = Ok tt /\
  existsb is_generate (log_of r) = false /\
  In (Toast ("⚠️ " ++ "Please fill in all fields to receive guidance") "⚠️") (log_of r) /\
  user_data (state_of r) = user_data s /\
  length (user_data (state_of r)) = length (user_data s) /\
  notification_counter (state_of r) = (notification_counter s + 1)%Z.
Proof.
  intros Hseek Hempty r. subst r. unfold main_seek_guidance. rewrite Hseek.
  assert (Hguard : negb (PyStr.truthy (faith w)) || negb (PyStr.truthy (trouble w)) = true).
  { destruct Hempty as [-> | ->]; cbn; [reflexivity | apply orb_true_r]. }
  rewrite Hguard. cbn. repeat split; auto.
Qed.

Lemma C10_empty_faith_witness :
  let r := main_seek_guidance (env_answering "Be still.") empty_faith_widgets initial_state in
  result_of r = Ok tt /\
  existsb is_generate (log_of r) = false /\
  In (Toast ("⚠️ " ++ "Please fill in all fields to receive guidance") "⚠️") (log_of r) /\
  user_data (state_of r) = [] /\
  length (user_data (state_of r)) = 0 /\
  notification_counter (state_of r) = 1%Z.
Proof.
  apply (C10_empty_field_skips_provider
           (env_answering "Be still.") empty_faith_widgets initial_state).
  - reflexivity.
  - left. reflexivity.
Defined.

(** ** Backgrounds *)

Section Background.

Variable env : Env.

(** A fetch that raises or answers with another status than 200 leaves the
    whole session state as it was and reports [False]. *)
Lemma set_background_from_url_failure (image_url faith_name : string) (s : SessionState) :
  (forall content content_type, requests_get env image_url <> Response 200 content content_type) ->
  result_of (set_background_from_url env image_url faith_name s) = Ok false /\
  state_of (set_background_from_url env image_url faith_name s) = s.
Proof.
  intros Hfail. unfold set_background_from_url, bind, emit, ret, result_of, state_of.
  destruct (requests_get env image_url) as [code content ctype | e]; cbn.
  - destruct (code =? 200)%Z eqn:Hcode; cbn; [|split; reflexivity].
    apply Z.eqb_eq in Hcode. subst code. exfalso. exact (Hfail content ctype eq_refl).
  - split; reflexivity.
Qed.

(** A file that cannot be read leaves the session state as it was. *)
Lemma set_background_from_file_failure (image_path e : string) (s : SessionState) :
  open_rb env image_path = FileRaises e ->
  set_background_from_file env image_path s =
  (Ok false, s, [OpenRead image_path; Warning ("Error loading background: " ++ e)]).
Proof.
  intros Hfail. unfold set_background_from_file, bind, emit, ret. rewrite Hfail. reflexivity.
Qed.

(** The Upload Image branch clears the path it stored when the load fails. *)
Lemma upload_failure_clears_path (w : Widgets) (s : SessionState) (name e : string) :
  bg_option w = "Upload Image" ->
  uploaded_file w = Some name ->
  open_rb env ("temp_bg_" ++ name) = FileRaises e ->
  custom_bg_path (state_of (show_background_settings env w s)) = None /\
  current_bg_type (state_of (show_background_settings env w s)) = current_bg_type s.
Proof.
  intros Hopt Hfile Hfail.
  unfold show_background_settings, set_background_from_file, bind, emit, modify, ret.
  rewrite Hopt, Hfile. cbn in Hfail |- *. rewrite Hfail. cbn. split; reflexivity.
Qed.

(** Every attempt to set a background from a URL starts with the fetch. *)
Lemma set_background_from_url_log (image_url faith_name : string) (s : SessionState) :
  exists rest,
    log_of (set_background_from_url env image_url faith_name s) = HttpGet image_url :: rest.
Proof.
  unfold set_background_from_url, bind, emit, modify, ret, log_of.
  destruct (requests_get env image_url) as [code content ctype | e]; cbn;
    [destruct (code =? 200)%Z|]; cbn; eauto.
Qed.

Lemma apply_resolved_log (item : string * FaithInfo) (s : SessionState) :
  exists rest, log_of (apply_resolved env item s) = HttpGet (url (snd item)) :: rest.
Proof.
  unfold apply_resolved, bind.
  destruct (set_background_from_url_log (url (snd item)) (fst item) s) as [rest Hlog].
  destruct (set_background_from_url env (url (snd item)) (fst item) s) as [[r s1] l1].
  unfold log_of in Hlog. cbn [snd] in Hlog. subst l1.
  destruct r as [ok|why]; [|exists rest; reflexivity].
  destruct (if ok then _ else _) as [[r2 s2] l2]. exists (rest ++ l2)%list. reflexivity.
Qed.

End Background.

(** C7, where the code departs from the claim.  Loading a local path that
    exists but cannot be read leaves the background type as it was, yet the
    new path stays stored in [custom_bg_path]: the switch is left half
    applied, since the Local File Path branch has no counterpart of the
    reset the Upload Image branch performs on failure. *)
Theorem C7_unreadable_local_path_stays_stored
  (env : Env) (w : Widgets) (s : SessionState) (e : string) :
  bg_option w = "Local File Path" ->
  local_path w <> "" ->
  load_local_btn w = true ->
  path_exists env (local_path w) = true ->
  open_rb env (local_path w) = FileRaises e ->
  let r := show_background_settings env w s in
  result_of r = Ok tt /\
  current_bg_type (state_of r) = current_bg_type s /\
  custom_bg_path (state_of r) = Some (local_path w) /\
  notification_counter (state_of r) = notification_counter s.
Proof.
  intros Hopt Hpath Hbtn Hexists Hfail r. subst r.
  unfold show_background_settings, set_background_from_file, bind, emit, modify, ret.
  rewrite Hopt, (truthy_true _ Hpath), Hbtn, Hexists. cbn. rewrite Hfail. cbn.
  repeat split; reflexivity.
Qed.

Lemma C7_directory_path_witness :
  let r := show_background_settings env_failing local_path_widgets initial_state in
  custom_bg_path initial_state = None /\
  result_of r = Ok tt /\
  current_bg_type (state_of r) = "default" /\
  custom_bg_path (state_of r) = Some "/tmp" /\
  notification_counter (state_of r) = 0%Z.
Proof.
  split; [reflexivity|].
  apply (C7_unreadable_local_path_stays_stored
           env_failing local_path_widgets initial_state "[Errno 21] Is a directory").
  - reflexivity.
  - discriminate.
  - reflexivity.
  - reflexivity.
  - reflexivity.
Defined.

(** C9. The Scripture BG button pressed with an empty faith: the guard of
    the block fails, so the run fetches nothing, shows nothing and leaves
    the whole session state as it was, although the loop, had it run on the
    empty string, would have settled on the first key, Hinduism, which the
    empty string matches like every other key. *)
Theorem C9_empty_faith_is_guarded_out (env : Env) (w : Widgets) (s : SessionState) :
  faith w = "" ->
  main_scripture_bg env w s = (Ok tt, s, []) /\
  (forall key, faith_matches (faith w) key = true) /\
  resolveByFreeText (faith w) = nth_error FAITH_BACKGROUNDS 0 /\
  option_map fst (resolveByFreeText (faith w)) = Some "Hinduism" /\
  In (HttpGet "https://images.unsplash.com/photo-1599092027257-28b80e0d9a6b?auto=format&fit=crop&w=1200&q=80")
     (log_of (scripture_loop env faith_keys (faith w) s)).
Proof.
  intros Hempty. rewrite Hempty.
  split; [|split; [|split; [|split]]].
  - unfold main_scripture_bg. rewrite Hempty. cbn [PyStr.truthy].
    rewrite andb_false_r. reflexivity.
  - intros key. unfold faith_matches. cbn [PyStr.lower].
    rewrite PyStrFacts.str_in_empty. reflexivity.
  - reflexivity.
  - reflexivity.
  - rewrite scripture_loop_resolves.
    change (resolveByFreeText "") with (nth_error FAITH_BACKGROUNDS 0).
    cbn [nth_error FAITH_BACKGROUNDS].
    match goal with
    | |- In _ (log_of (apply_resolved _ ?item _)) =>
        destruct (apply_resolved_log env item s) as [rest Hlog]
    end.
    rewrite Hlog. left. reflexivity.
Qed.

Lemma C9_empty_faith_witness :
  main_scripture_bg env_failing empty_faith_widgets initial_state = (Ok tt, initial_state, []) /\
  (forall key, faith_matches (faith empty_faith_widgets) key = true) /\
  resolveByFreeText (faith empty_faith_widgets) = nth_error FAITH_BACKGROUNDS 0 /\
  option_map fst (resolveByFreeText (faith empty_faith_widgets)) = Some "Hinduism" /\
  In (HttpGet "https://images.unsplash.com/photo-1599092027257-28b80e0d9a6b?auto=format&fit=crop&w=1200&q=80")
     (log_of (scripture_loop env_failing faith_keys (faith empty_faith_widgets) initial_state)).
Proof.
  apply (C9_empty_faith_is_guarded_out env_failing empty_faith_widgets initial_state).
  reflexivity.
Defined.

(** ** The reminder gate *)

Section Reminder.

Variable env : Env.

(** The three ways a reminder check ends. *)
Lemma check_and_show_reminder_run (s : SessionState) :
  check_and_show_reminder env s =
  if Z_in (now_hour env) reminder_hours && negb (reminder_triggered s) then
    (Ok tt, set_reminder_triggered true s,
     [ Balloons;
       Info ("🔔 **Daily Reminder:** "
             ++ nth (random_choice env mod length reminder_messages) reminder_messages "") ])
  else if negb (Z_in (now_hour env) reminder_hours) then
    (Ok tt, set_reminder_triggered false s, [])
  else (Ok tt, s, []).
Proof.
  unfold check_and_show_reminder, bind, get.
  destruct (Z_in (now_hour env) reminder_hours); destruct (reminder_triggered s); reflexivity.
Qed.

Lemma Z_in_reminder_hours (h : Z) :
  Z_in h reminder_hours = true <->
  (h = 9 \/ h = 12 \/ h = 15 \/ h = 18 \/ h = 21)%Z.
Proof.
  unfold Z_in, reminder_hours. cbn [existsb].
  rewrite !orb_true_iff, !Z.eqb_eq. intuition discriminate.
Qed.

Lemma set_reminder_triggered_same (s : SessionState) :
  set_reminder_triggered (reminder_triggered s) s = s.
Proof. destruct s; reflexivity. Qed.

Lemma check_and_show_reminder_fired (s : SessionState) :
  fired (log_of (check_and_show_reminder env s)) =
  Z_in (now_hour env) reminder_hours && negb (reminder_triggered s).
Proof.
  rewrite check_and_show_reminder_run.
  destruct (Z_in (now_hour env) reminder_hours); destruct (reminder_triggered s); reflexivity.
Qed.

Lemma check_and_show_reminder_state (s : SessionState) :
  state_of (check_and_show_reminder env s) =
  set_reminder_triggered (Z_in (now_hour env) reminder_hours) s.
Proof.
  rewrite check_and_show_reminder_run.
  destruct (Z_in (now_hour env) reminder_hours);
    destruct (reminder_triggered s) eqn:Hflag; cbn; try reflexivity.
  rewrite <- Hflag. symmetry. apply set_reminder_triggered_same.
Qed.

End Reminder.

(** C4, as the code has it.  The code keeps one flag, not the hour of the
    last reminder.  For every hour and every state a reminder is shown
    exactly when the hour is one of 9, 12, 15, 18, 21 and the flag is not
    set; after the check the flag is set exactly when the hour is in the
    schedule (set on firing, kept when already set, reset outside the
    schedule) and nothing else in the state has changed; so the next check
    shows a reminder exactly when its hour is in the schedule and the hour
    of this check was not. *)
Theorem C4_reminder_gate_is_a_flag (env next_env : Env) (s : SessionState) :
  let h := now_hour env in
  let r := check_and_show_reminder env s in
  result_of r = Ok tt /\
  (Z_in h reminder_hours = true <-> (h = 9 \/ h = 12 \/ h = 15 \/ h = 18 \/ h = 21)%Z) /\
  fired (log_of r) = Z_in h reminder_hours && negb (reminder_triggered s) /\
  reminder_triggered (state_of r) = Z_in h reminder_hours /\
  state_of r = set_reminder_triggered (Z_in h reminder_hours) s /\
  fired (log_of (check_and_show_reminder next_env (state_of r))) =
    Z_in (now_hour next_env) reminder_hours && negb (Z_in h reminder_hours).
Proof.
  cbv zeta.
  split; [|split; [|split; [|split; [|split]]]].
  - rewrite check_and_show_reminder_run.
    destruct (_ && _); [|destruct (negb _)]; reflexivity.
  - apply Z_in_reminder_hours.
  - apply check_and_show_reminder_fired.
  - rewrite check_and_show_reminder_state. reflexivity.
  - apply check_and_show_reminder_state.
  - rewrite check_and_show_reminder_fired, check_and_show_reminder_state. reflexivity.
Qed.

(** C4 as stated fails: after the reminder of hour 9, a check at hour 12
    shows nothing in the code, where the gate that remembers the last fired
    hour fires again. *)
Lemma C4_counterexample_nine_then_twelve :
  fst (reminder_trace env_failing [9; 12]%Z initial_state) = [true; false] /\
  fst (ReminderGateSpec.trace [9; 12]%Z (ReminderGateSpec.mk None)) = [true; true] /\
  fst (reminder_trace env_failing [9; 12]%Z initial_state) <>
  fst (ReminderGateSpec.trace [9; 12]%Z (ReminderGateSpec.mk None)).
Proof.
  split; [reflexivity|]. split; [reflexivity|]. discriminate.
Qed.

(** C5. From a state that never fired: the check at hour 9 shows a reminder
    and records that it fired; a second check at hour 9 shows nothing and
    leaves the state as it is; a check at hour 10 shows nothing and resets
    the record, giving back the starting state.  Along this trace the flag
    of the code reads as the states [none], [9], [9], [none] of the gate
    the specification describes, and the two gates fire alike. *)
Theorem C5_reminder_trace_9_9_10 (env : Env) (s : SessionState) :
  let fresh := set_reminder_triggered false s in
  let r1 := check_and_show_reminder (at_hour env 9) fresh in
  let r2 := check_and_show_reminder (at_hour env 9) (state_of r1) in
  let r3 := check_and_show_reminder (at_hour env 10) (state_of r2) in
  (fired (log_of r1) = true /\ state_of r1 = set_reminder_triggered true s) /\
  (fired (log_of r2) = false /\ state_of r2 = state_of r1) /\
  (fired (log_of r3) = false /\ state_of r3 = fresh) /\
  ReminderGateSpec.shouldFire 9 (ReminderGateSpec.mk None)
    = (fired (log_of r1), ReminderGateSpec.mk (Some 9%Z)) /\
  ReminderGateSpec.shouldFire 9 (ReminderGateSpec.mk (Some 9%Z))
    = (fired (log_of r2), ReminderGateSpec.mk (Some 9%Z)) /\
  ReminderGateSpec.shouldFire 10 (ReminderGateSpec.mk (Some 9%Z))
    = (fired (log_of r3), ReminderGateSpec.mk None) /\
  ReminderGateSpec.agrees (reminder_triggered fresh) (ReminderGateSpec.mk None) /\
  ReminderGateSpec.agrees (reminder_triggered (state_of r1)) (ReminderGateSpec.mk (Some 9%Z)) /\
  ReminderGateSpec.agrees (reminder_triggered (state_of r2)) (ReminderGateSpec.mk (Some 9%Z)) /\
  ReminderGateSpec.agrees (reminder_triggered (state_of r3)) (ReminderGateSpec.mk None).
Proof.
  cbv zeta.
  rewrite !check_and_show_reminder_fired, !check_and_show_reminder_state.
  destruct s; cbn. unfold ReminderGateSpec.agrees. cbn. repeat split; reflexivity.
Qed.

(** ** The journal and its views *)

Section Journal.

Lemma firstn_snoc {A} (l : list A) (n : nat) (x : A) :
  nth_error l n = Some x -> firstn (S n) l = (firstn n l ++ [x])%list.
Proof.
  revert n; induction l as [|a l IH]; intros [|n] H; try discriminate.
  - injection H as ->. reflexivity.
  - cbn [nth_error] in H. change (firstn (S (S n)) (a :: l)) with (a :: firstn (S n) l).
    rewrite (IH n H). reflexivity.
Qed.

(** The iterator started below position [n] yields the first [n] elements
    backwards, given fuel for each of them. *)
Lemma drain_firstn {A} (l : list A) (n fuel : nat) :
  n <= length l -> n <= fuel ->
  ReverseIter.drain fuel l (Z.of_nat n - 1) = rev (firstn n l).
Proof.
  revert fuel; induction n as [|n IH]; intros fuel Hlen Hfuel.
  - destruct fuel; reflexivity.
  - destruct fuel as [|fuel]; [lia|].
    cbn [ReverseIter.drain]. unfold ReverseIter.next.
    replace (Z.of_nat (S n) - 1)%Z with (Z.of_nat n) by lia.
    assert (Hin : ((0 <=? Z.of_nat n) && (Z.of_nat n <? Z.of_nat (length l)) = true)%Z).
    { apply andb_true_iff. split; [apply Z.leb_le | apply Z.ltb_lt]; lia. }
    rewrite Hin, Nat2Z.id.
    destruct (nth_error l n) as [x|] eqn:Hx.
    + rewrite (firstn_snoc l n x Hx), rev_app_distr. cbn [rev app].
      rewrite (IH fuel) by lia. reflexivity.
    + apply nth_error_None in Hx. lia.
Qed.

Lemma reversed_to_list {A} (l : list A) : ReverseIter.to_list l = rev l.
Proof.
  unfold ReverseIter.to_list, ReverseIter.reversed.
  rewrite drain_firstn by lia. rewrite firstn_all. reflexivity.
Qed.

Lemma show_entry_run (entry : Entry.t) (s : SessionState) :
  show_entry entry s = (Ok tt, s, entry_events entry).
Proof. reflexivity. Qed.

(** The loop of the history panel writes the entries the iterator yields
    and leaves the session state alone. *)
Lemma for_reversed_show_entry (fuel : nat) (i : Z) (s : SessionState) :
  for_reversed fuel i show_entry s =
  (Ok tt, s, flat_map entry_events (ReverseIter.drain fuel (user_data s) i)).
Proof.
  revert i; induction fuel as [|fuel IH]; intros i; [reflexivity|].
  cbn [for_reversed ReverseIter.drain]. unfold bind at 1. cbn [get].
  destruct (ReverseIter.next (user_data s) i) as [[entry i']|]; [|reflexivity].
  unfold bind. rewrite show_entry_run, IH. reflexivity.
Qed.

Lemma show_user_history_run (s : SessionState) :
  show_user_history s =
  (Ok tt, s,
   match user_data s with
   | [] => [Info "Your spiritual journey begins now... 🌱"]
   | _ :: _ =>
       Write ("**Total Sessions:** " ++ str_of_Z (Z.of_nat (length (user_data s))))
       :: flat_map entry_events (rev (user_data s))
   end).
Proof.
  unfold show_user_history, bind at 1. cbn [get].
  destruct (user_data s) as [|e l] eqn:Hdata; [reflexivity|].
  unfold bind, emit. rewrite <- Hdata, for_reversed_show_entry.
  fold (ReverseIter.to_list (user_data s)). rewrite reversed_to_list. reflexivity.
Qed.

Lemma user_data_appends (es : list Entry.t) (s : SessionState) :
  user_data (fold_left (fun acc entry => append_entry entry acc) es s) =
  (user_data s ++ es)%list.
Proof.
  revert s; induction es as [|e es IH]; intros s; cbn [fold_left].
  - rewrite app_nil_r. reflexivity.
  - rewrite IH. cbn. rewrite <- app_assoc. reflexivity.
Qed.

End Journal.

(** C8. After any sequence of appends to any journal: the stored sequence
    is the old one followed by the appended entries in order; every further
    append makes the count one larger; the most-recent-first view is
    exactly the reverse of the chronological one; showing the history
    leaves the session state, hence the stored order, as it was and writes
    the entries newest first; and a second showing traverses the journal
    afresh, with the same result as the first. *)
Theorem C8_most_recent_first_is_reverse (s : SessionState) (es : list Entry.t) :
  let s' := fold_left (fun acc entry => append_entry entry acc) es s in
  viewChronological s' = (viewChronological s ++ es)%list /\
  length (user_data s') = length (user_data s) + length es /\
  (forall entry, length (user_data (append_entry entry s')) = length (user_data s') + 1) /\
  (forall entry,
      viewChronological (append_entry entry s') = (viewChronological s' ++ [entry])%list) /\
  viewMostRecentFirst s' = rev (viewChronological s') /\
  state_of (show_user_history s') = s' /\
  viewChronological (state_of (show_user_history s')) = (viewChronological s ++ es)%list /\
  log_of (show_user_history s') =
    match viewChronological s' with
    | [] => [Info "Your spiritual journey begins now... 🌱"]
    | _ :: _ =>
        Write ("**Total Sessions:** " ++ str_of_Z (Z.of_nat (length (user_data s'))))
        :: flat_map entry_events (viewMostRecentFirst s')
    end /\
  show_user_history (state_of (show_user_history s')) = show_user_history s'.
Proof.
  cbv zeta. unfold viewChronological, viewMostRecentFirst.
  rewrite !show_user_history_run, !reversed_to_list, !user_data_appends.
  unfold state_of, log_of. cbn [fst snd].
  rewrite ?user_data_appends.
  split; [reflexivity|].
  split; [apply length_app|].
  split; [intros entry; cbn; rewrite user_data_appends, !length_app; cbn; lia|].
  split; [intros entry; cbn; rewrite user_data_appends; reflexivity|].
  repeat split; reflexivity.
Qed.

(** ** The snippets of the history panel *)

Lemma snippet_shape (n : nat) (text : string) :
  PyStr.take n text ++ "..." =
  (if (String.length text <=? n)%nat then text else PyStr.take n text) ++ "...".
Proof.
  destruct (String.length text <=? n)%nat eqn:Hlen; [|reflexivity].
  apply Nat.leb_le in Hlen. rewrite PyStrFacts.take_all by exact Hlen. reflexivity.
Qed.

Lemma snippet_length (n : nat) (text : string) :
  String.length (PyStr.take n text ++ "...") = Nat.min n (String.length text) + 3.
Proof. rewrite PyStrFacts.length_append, PyStrFacts.length_take. reflexivity. Qed.

Lemma history_shows_entry (entry : Entry.t) (before after : list Entry.t)
  (s : SessionState) (e : Event) :
  In e (entry_events entry) ->
  In e (log_of (show_user_history (set_user_data (before ++ entry :: after)%list s))).
Proof.
  intros He. rewrite show_user_history_run. unfold log_of. cbn [snd set_user_data user_data].
  destruct (before ++ entry :: after)%list as [|e0 l] eqn:Hdata.
  - destruct before; discriminate.
  - rewrite <- Hdata. right. apply in_flat_map. exists entry. split; [|exact He].
    apply in_rev. rewrite rev_involutive. apply in_elt.
Qed.

(** C2, as the code has it.  For every stored entry the history panel
    shows the first 150 characters of the concern and the first 300 of the
    guidance, the whole text when it is no longer than that, and always
    puts the marker of three dots after it, whether or not anything was cut
    off; showing the history leaves the session state as it was, so the
    stored entry keeps its full text. *)
Theorem C2_snippets_always_end_in_marker
  (entry : Entry.t) (before after : list Entry.t) (s : SessionState) :
  let concern := Entry.trouble entry in
  let guidance := Entry.response entry in
  let stored := set_user_data (before ++ entry :: after)%list s in
  concern_snippet entry =
    (if (String.length concern <=? 150)%nat then concern else PyStr.take 150 concern) ++ "..." /\
  guidance_snippet entry =
    (if (String.length guidance <=? 300)%nat then guidance else PyStr.take 300 guidance) ++ "..." /\
  String.length (concern_snippet entry) = Nat.min 150 (String.length concern) + 3 /\
  String.length (guidance_snippet entry) = Nat.min 300 (String.length guidance) + 3 /\
  (exists rest, concern = PyStr.take 150 concern ++ rest) /\
  (exists rest, guidance = PyStr.take 300 guidance ++ rest) /\
  In (Write ("_" ++ concern_snippet entry ++ "_")) (log_of (show_user_history stored)) /\
  In (Write (guidance_snippet entry)) (log_of (show_user_history stored)) /\
  state_of (show_user_history stored) = stored /\
  user_data (state_of (show_user_history stored)) = (before ++ entry :: after)%list.
Proof.
  cbv zeta. unfold concern_snippet, guidance_snippet.
  split; [apply snippet_shape|].
  split; [apply snippet_shape|].
  split; [apply snippet_length|].
  split; [apply snippet_length|].
  split; [apply PyStrFacts.take_prefix|].
  split; [apply PyStrFacts.take_prefix|].
  split; [apply history_shows_entry; cbn; tauto|].
  split; [apply history_shows_entry; cbn; tauto|].
  rewrite show_user_history_run. split; reflexivity.
Qed.

(** C2 as stated fails: a concern of 11 characters, and one of exactly 100,
    both shorter than the limit of 150, are shown with the marker after
    them, not unmodified. *)
Lemma C2_counterexample_short_concern_gets_marker :
  String.length (Entry.trouble short_entry) = 11 /\
  concern_snippet short_entry = "I feel lost..." /\
  concern_snippet short_entry <> Entry.trouble short_entry /\
  String.length (repeat_char "a" 100) = 100 /\
  concern_snippet (Entry.mk "" "" (repeat_char "a" 100) "" "")
    = repeat_char "a" 100 ++ "..." /\
  concern_snippet (Entry.mk "" "" (repeat_char "a" 100) "" "") <> repeat_char "a" 100.
Proof.
  split; [reflexivity|]. split; [reflexivity|]. split; [discriminate|].
  split; [reflexivity|]. split; [reflexivity|].
  unfold concern_snippet. cbn [Entry.trouble].
  rewrite PyStrFacts.take_all by (vm_compute; lia).
  apply PyStrFacts.append_dots_neq.
Qed.

(** ** A whole run *)

(** In the end-to-end scenario run through [main] from a fresh session, the
    journal gains its entry; the counter ends at 2, one for the saved
    guidance and one for the "Preferences saved" toast the sidebar shows
    on every run while its box is ticked. *)
Example main_scenario_run :
  let r := main (env_answering "Be still.") scenario_widgets initial_state in
  result_of r = Ok tt /\
  user_data (state_of r) =
    [Entry.mk "Buddhism" "Seek Purpose" "I feel lost" "Be still." "2025-03-01T10:15:00"] /\
  notification_counter (state_of r) = 2%Z /\
  user_preferences (state_of r) = Prefs.mk "Buddhism" "Find Help".
Proof. vm_compute. repeat split; reflexivity. Qed.

(** ** Sequencing and frames *)

Section Frames.

Context {R : nat -> SessionState -> SessionState -> Prop} (F : Frame R).

Lemma within_ret {A} (n : nat) (a : A) : within R n (ret a).
Proof. intros s. apply (frame_refl R F). Qed.

Lemma within_emit (n : nat) (e : Event) : within R n (emit e).
Proof. intros s. apply (frame_refl R F). Qed.

Lemma within_get (n : nat) : within R n get.
Proof. intros s. apply (frame_refl R F). Qed.

Lemma within_stop {A} (n : nat) (why : string) : within R n (@stop A why).
Proof. intros s. apply (frame_refl R F). Qed.

Lemma within_weaken {A} (n n' : nat) (m : M A) :
  n <= n' -> within R n m -> within R n' m.
Proof. intros Hle Hm s. exact (frame_mono R F n n' _ _ Hle (Hm s)). Qed.

(** A sequence stays within the sum of the budgets of its two parts. *)
Lemma within_bind {A B} (n1 n2 n : nat) (m : M A) (k : A -> M B) :
  within R n1 m -> (forall a, within R n2 (k a)) -> n1 + n2 <= n ->
  within R n (bind m k).
Proof.
  intros Hm Hk Hle s. apply (frame_mono R F (n1 + n2) n _ _ Hle).
  specialize (Hm s). unfold bind, state_of in *.
  destruct (m s) as [[[a|why] s1] log1]; cbn [fst snd] in *.
  - specialize (Hk a s1). unfold state_of in Hk.
    destruct (k a s1) as [[r2 s2] log2]. cbn [fst snd] in *.
    exact (frame_add R F n1 n2 _ _ _ Hm Hk).
  - apply (frame_add R F n1 n2 _ s1 _ Hm). apply (frame_refl R F).
Qed.

(** What follows a step that always stops does not count. *)
Lemma within_stops_bind {A B} (n : nat) (m : M A) (k : A -> M B) :
  stops m -> within R n m -> within R n (bind m k).
Proof.
  intros Hstop Hm s. specialize (Hm s). destruct (Hstop s) as [why Hwhy].
  unfold bind, state_of, result_of in *.
  destruct (m s) as [[[a|why'] s1] log1]; cbn [fst snd] in *; [discriminate | exact Hm].
Qed.

End Frames.

Section Logs.

Context {A B : Type} (p : Event -> bool).





End Logs.

Lemma counter_frame : Frame counter_rises.
Proof.
  split; unfold counter_rises.
  - intros n s. lia.
  - intros n1 n2 a b c H1 H2. lia.
  - intros n n' a b Hle H. lia.
Qed.

Lemma journal_frame : Frame journal_grows.
Proof.
  split; unfold journal_grows.
  - intros n s. exists []. rewrite app_nil_r. split; [reflexivity | cbn; lia].
  - intros n1 n2 a b c [t1 [H1 L1]] [t2 [H2 L2]]. exists (t1 ++ t2)%list.
    rewrite H2, H1, <- app_assoc, length_app. split; [reflexivity | lia].
  - intros n n' a b Hle [t [H L]]. exists t. split; [exact H | lia].
Qed.

Lemma flag_frame : Frame flag_kept.
Proof.
  split; unfold flag_kept.
  - reflexivity.
  - intros n1 n2 a b c H1 H2. rewrite H2. exact H1.
  - intros n n' a b _ H. exact H.
Qed.

Lemma bg_frame : Frame bg_type_stays_known.
Proof.
  split; unfold bg_type_stays_known.
  - intros n s H. exact H.
  - intros n1 n2 a b c H1 H2 H. exact (H2 (H1 H)).
  - intros n n' a b _ H. exact H.
Qed.

(** ** What each function may change *)

Ltac run_cases :=
  repeat (cbn -[String.eqb Z.eqb Z.add Z.of_nat Nat.modulo nth String.append];
          match goal with
          | |- context [match ?x with _ => _ end] =>
              lazymatch x with
              | context [match _ with _ => _ end] => fail
              | _ => destruct x eqn:?
              end
          end);
  cbn -[String.eqb Z.eqb Z.add Z.of_nat Nat.modulo nth String.append].

Ltac unfold_script :=
  unfold show_background_settings, show_preferences, show_reminder_settings,
    main_clear_form, main_seek_guidance, check_and_show_reminder, apply_resolved,
    set_background_from_file, set_background_from_url, show_notification,
    bind, emit, modify, ret, get, stop, state_of, log_of, result_of.

Ltac leaf_counter := unfold counter_rises; cbn; lia.

Ltac leaf_journal :=
  unfold journal_grows; cbn;
  first [ exists []; rewrite app_nil_r; split; [reflexivity | cbn; lia]
        | eexists [_]; split; [reflexivity | cbn; lia] ].

Ltac leaf_bg := unfold bg_type_stays_known, bg_type_known; cbn; auto.

Section Footprints.

Variable env : Env.
Variable w : Widgets.

Lemma main_scripture_bg_unfold (s : SessionState) :
  main_scripture_bg env w s =
  if auto_bg w && PyStr.truthy (faith w) then
    match resolveByFreeText (faith w) with
    | Some item => apply_resolved env item s
    | None => emit (Info ("💡 Available faiths: " ++ PyStr.join ", " faith_keys)) s
    end
  else (Ok tt, s, []).
Proof.
  unfold main_scripture_bg. destruct (auto_bg w && PyStr.truthy (faith w)); [|reflexivity].
  apply scripture_loop_resolves.
Qed.

(** The notification counter. *)

Lemma counter_check_and_show_reminder : within counter_rises 0 (check_and_show_reminder env).
Proof. intros s. unfold_script. run_cases; leaf_counter. Qed.

Lemma counter_show_background_settings : within counter_rises 1 (show_background_settings env w).
Proof. intros s. unfold_script. run_cases; leaf_counter. Qed.

Lemma counter_show_preferences : within counter_rises 1 (show_preferences w).
Proof. intros s. unfold_script. run_cases; leaf_counter. Qed.

Lemma counter_show_reminder_settings : within counter_rises 0 (show_reminder_settings w).
Proof. intros s. unfold_script. run_cases; leaf_counter. Qed.

Lemma counter_show_user_history : within counter_rises 0 show_user_history.
Proof. intros s. rewrite show_user_history_run. leaf_counter. Qed.

Lemma counter_main_scripture_bg : within counter_rises 1 (main_scripture_bg env w).
Proof. intros s. rewrite main_scripture_bg_unfold. unfold_script. run_cases; leaf_counter. Qed.

Lemma counter_main_clear_form : within counter_rises 1 (main_clear_form w).
Proof. intros s. unfold_script. run_cases; leaf_counter. Qed.

Lemma counter_main_seek_guidance : within counter_rises 1 (main_seek_guidance env w).
Proof. intros s. unfold_script. run_cases; leaf_counter. Qed.

(** The journal. *)

Lemma journal_check_and_show_reminder : within journal_grows 0 (check_and_show_reminder env).
Proof. intros s. unfold_script. run_cases; leaf_journal. Qed.

Lemma journal_show_background_settings : within journal_grows 0 (show_background_settings env w).
Proof. intros s. unfold_script. run_cases; leaf_journal. Qed.

Lemma journal_show_preferences : within journal_grows 0 (show_preferences w).
Proof. intros s. unfold_script. run_cases; leaf_journal. Qed.

Lemma journal_show_reminder_settings : within journal_grows 0 (show_reminder_settings w).
Proof. intros s. unfold_script. run_cases; leaf_journal. Qed.

Lemma journal_show_user_history : within journal_grows 0 show_user_history.
Proof. intros s. rewrite show_user_history_run. leaf_journal. Qed.

Lemma journal_main_scripture_bg : within journal_grows 0 (main_scripture_bg env w).
Proof. intros s. rewrite main_scripture_bg_unfold. unfold_script. run_cases; leaf_journal. Qed.

Lemma journal_main_clear_form : within journal_grows 0 (main_clear_form w).
Proof. intros s. unfold_script. run_cases; leaf_journal. Qed.

Lemma journal_main_seek_guidance : within journal_grows 1 (main_seek_guidance env w).
Proof. intros s. unfold_script. run_cases; leaf_journal. Qed.

(** The reminder flag. *)

Lemma flag_show_background_settings : within flag_kept 0 (show_background_settings env w).
Proof. intros s. unfold_script. run_cases; reflexivity. Qed.

Lemma flag_show_preferences : within flag_kept 0 (show_preferences w).
Proof. intros s. unfold_script. run_cases; reflexivity. Qed.

Lemma flag_show_reminder_settings : within flag_kept 0 (show_reminder_settings w).
Proof. intros s. unfold_script. run_cases; reflexivity. Qed.

Lemma flag_show_user_history : within flag_kept 0 show_user_history.
Proof. intros s. rewrite show_user_history_run. reflexivity. Qed.

Lemma flag_main_scripture_bg : within flag_kept 0 (main_scripture_bg env w).
Proof. intros s. rewrite main_scripture_bg_unfold. unfold_script. run_cases; reflexivity. Qed.

Lemma flag_main_clear_form : within flag_kept 0 (main_clear_form w).
Proof. intros s. unfold_script. run_cases; reflexivity. Qed.

Lemma flag_main_seek_guidance : within flag_kept 0 (main_seek_guidance env w).
Proof. intros s. unfold_script. run_cases; reflexivity. Qed.

(** The background type. *)

Lemma bg_check_and_show_reminder : within bg_type_stays_known 0 (check_and_show_reminder env).
Proof. intros s. unfold_script. run_cases; leaf_bg. Qed.

Lemma bg_show_background_settings : within bg_type_stays_known 0 (show_background_settings env w).
Proof. intros s. unfold_script. run_cases; leaf_bg. Qed.

Lemma bg_show_preferences : within bg_type_stays_known 0 (show_preferences w).
Proof. intros s. unfold_script. run_cases; leaf_bg. Qed.

Lemma bg_show_reminder_settings : within bg_type_stays_known 0 (show_reminder_settings w).
Proof. intros s. unfold_script. run_cases; leaf_bg. Qed.

Lemma bg_show_user_history : within bg_type_stays_known 0 show_user_history.
Proof. intros s. rewrite show_user_history_run. leaf_bg. Qed.

Lemma bg_main_scripture_bg : within bg_type_stays_known 0 (main_scripture_bg env w).
Proof. intros s. rewrite main_scripture_bg_unfold. unfold_script. run_cases; leaf_bg. Qed.

Lemma bg_main_clear_form : within bg_type_stays_known 0 (main_clear_form w).
Proof. intros s. unfold_script. run_cases; leaf_bg. Qed.

Lemma bg_main_seek_guidance : within bg_type_stays_known 0 (main_seek_guidance env w).
Proof. intros s. unfold_script. run_cases; leaf_bg. Qed.

End Footprints.

(** ** The Clear button *)

Lemma main_clear_form_pressed (w : Widgets) :
  clear_form w = true -> stops (main_clear_form w).
Proof.
  intros Hclear s. unfold main_clear_form. rewrite Hclear. unfold_script.
  run_cases; eexists; reflexivity.
Qed.

Lemma main_clear_form_idle (w : Widgets) :
  clear_form w = false -> main_clear_form w = ret tt.
Proof. intros Hclear. unfold main_clear_form. rewrite Hclear. reflexivity. Qed.

(** ** A whole run of [main], step by step *)

Create HintDb footprint.

#[local] Hint Resolve
  counter_check_and_show_reminder counter_show_background_settings
  counter_show_preferences counter_show_reminder_settings counter_show_user_history
  counter_main_scripture_bg counter_main_clear_form counter_main_seek_guidance
  journal_check_and_show_reminder journal_show_background_settings
  journal_show_preferences journal_show_reminder_settings journal_show_user_history
  journal_main_scripture_bg journal_main_clear_form journal_main_seek_guidance
  flag_show_background_settings flag_show_preferences flag_show_reminder_settings
  flag_show_user_history flag_main_scripture_bg flag_main_clear_form
  flag_main_seek_guidance
  bg_check_and_show_reminder bg_show_background_settings bg_show_preferences
  bg_show_reminder_settings bg_show_user_history bg_main_scripture_bg
  bg_main_clear_form bg_main_seek_guidance : footprint.

Ltac leaf F :=
  first [ apply (within_emit F) | apply (within_ret F)
        | apply (within_get F) | apply (within_stop F) ].

(** Walks down a sequence, charging each step 0 or 1 of the budget. *)
Ltac seq F :=
  repeat lazymatch goal with
    | Hclear : clear_form ?w = true |- within ?R ?n (bind (main_clear_form ?w) ?k) =>
        apply within_stops_bind;
        [ apply main_clear_form_pressed; exact Hclear
        | first [ apply (within_weaken F 0 n); [lia | solve [auto with footprint]]
                | apply (within_weaken F 1 n); [lia | solve [auto with footprint]] ] ]
    | |- within ?R ?n (bind ?m ?k) =>
        first [ apply (within_bind F 0 n n); [solve [leaf F | auto with footprint] | intro | lia]
              | lazymatch n with
                | S ?n' =>
                    apply (within_bind F 1 n' n); [solve [auto with footprint] | intro | lia]
                end ]
    end;
  try solve [leaf F].


Section WholeRun.

Variable env : Env.
Variable w : Widgets.

(** [main] stays within a frame when each of its steps does: the budget
    [n] pays for the steps that need one. *)
Lemma main_counter : within counter_rises 4 (main env w).
Proof.
  destruct (clear_form w) eqn:Hclear; unfold main.
  - seq counter_frame.
  - rewrite (main_clear_form_idle w Hclear). seq counter_frame.
Qed.

Lemma main_journal : within journal_grows 1 (main env w).
Proof.
  destruct (clear_form w) eqn:Hclear; unfold main.
  - seq journal_frame.
  - rewrite (main_clear_form_idle w Hclear). seq journal_frame.
Qed.

Lemma main_journal_cleared : clear_form w = true -> within journal_grows 0 (main env w).
Proof. intros Hclear. unfold main. seq journal_frame. Qed.

Lemma main_bg_type : within bg_type_stays_known 0 (main env w).
Proof.
  destruct (clear_form w) eqn:Hclear; unfold main.
  - seq bg_frame.
  - rewrite (main_clear_form_idle w Hclear). seq bg_frame.
Qed.

End WholeRun.

(** ** What a run never sends to the model before the request block *)

Lemma entries_never_generate (l : list Entry.t) :
  existsb is_generate (flat_map entry_events l) = false.
Proof. induction l as [|e l IH]; [reflexivity | cbn; exact IH]. Qed.

Section BeforeTheRequest.

Variable env : Env.
Variable w : Widgets.






Lemma silent_show_user_history : silent is_generate show_user_history.
Proof.
  intros s. rewrite show_user_history_run. unfold log_of. cbn [snd].
  destruct (user_data s); [reflexivity|]. cbn [existsb is_generate orb].
  apply entries_never_generate.
Qed.



(** A request that is not made, or made with a field left empty, adds
    nothing to the journal. *)
Lemma journal_main_seek_guidance_idle :
  seek_guidance w && PyStr.truthy (faith w) && PyStr.truthy (trouble w) = false ->
  within journal_grows 0 (main_seek_guidance env w).
Proof.
  intros Hidle s. unfold main_seek_guidance.
  destruct (seek_guidance w); [|leaf_journal].
  destruct (PyStr.truthy (faith w)); [|unfold_script; run_cases; leaf_journal].
  destruct (PyStr.truthy (trouble w)); [discriminate|].
  unfold_script; run_cases; leaf_journal.
Qed.



Lemma main_journal_exact :
  within journal_grows
    (if negb (clear_form w) && seek_guidance w
        && PyStr.truthy (faith w) && PyStr.truthy (trouble w)
     then 1 else 0)
    (main env w).
Proof.
  destruct (clear_form w) eqn:Hclear; cbn [negb andb].
  - apply main_journal_cleared. exact Hclear.
  - unfold main. rewrite (main_clear_form_idle w Hclear).
    destruct (seek_guidance w && PyStr.truthy (faith w) && PyStr.truthy (trouble w)) eqn:Hreq.
    + seq journal_frame.
    + pose proof (journal_main_seek_guidance_idle Hreq) as Hidle. seq journal_frame.
Qed.

(** The steps after the reminder check leave the reminder flag alone. *)
Lemma main_flag (s : SessionState) :
  reminder_triggered (state_of (main env w s)) =
  reminder_triggered (state_of (check_and_show_reminder env s)).
Proof.
  unfold main.
  assert (Hrest : forall (m : M unit) (k : unit -> M unit) (s0 : SessionState),
             (forall a, within flag_kept 0 (k a)) ->
             reminder_triggered (state_of (bind m k s0)) = reminder_triggered (state_of (m s0))).
  { intros m k s0 Hk. unfold bind, state_of.
    destruct (m s0) as [[[a|why] s1] log1]; cbn [fst snd]; [|reflexivity].
    specialize (Hk a s1). unfold flag_kept, state_of in Hk.
    destruct (k a s1) as [[r2 s2] log2]. exact Hk. }
  assert (Hemit : forall (e : Event) (k : unit -> M unit) (s0 : SessionState),
             state_of (bind (emit e) k s0) = state_of (k tt s0)).
  { intros e k s0. unfold bind, emit, state_of.
    destruct (k tt s0) as [[r2 s2] log2]. reflexivity. }
  rewrite !Hemit.
  apply Hrest. intro. seq flag_frame.
Qed.

End BeforeTheRequest.

(** X7. Whatever the widgets, the collaborators and the starting state, one
    run of [main] never lowers the notification counter and raises it by at
    most 4; a run with the sidebar theme applied, the preferences box
    ticked, the Scripture BG button and a successful guidance request
    raises it by exactly 4. *)
Theorem X7_main_counter_rises_by_at_most_four
  (env : Env) (w : Widgets) (s : SessionState) :
  (notification_counter s <= notification_counter (state_of (main env w s))
   <= notification_counter s + 4)%Z /\
  notification_counter
    (state_of (main (env_answering "Rest.") busy_widgets initial_state)) = 4%Z.
Proof.
  split; [exact (main_counter env w s) | vm_compute; reflexivity].
Qed.

(** X8. One run of [main] keeps every stored journal entry, in place and
    in order, and appends at most one entry; it appends none unless Seek
    Guidance is pressed with a non-empty faith and a non-empty concern and
    Clear is not pressed. *)
Theorem X8_main_journal_is_append_only
  (env : Env) (w : Widgets) (s : SessionState) :
  exists tail,
    user_data (state_of (main env w s)) = (user_data s ++ tail)%list /\
    length tail <=
      (if negb (clear_form w) && seek_guidance w
          && PyStr.truthy (faith w) && PyStr.truthy (trouble w)
       then 1 else 0).
Proof. exact (main_journal_exact env w s). Qed.



(** X10. A run of [main] that starts with the background type being one of
    "default", "custom" and "faith" ends with it being one of them. *)
Theorem X10_main_keeps_background_type_known
  (env : Env) (w : Widgets) (s : SessionState) :
  bg_type_known s -> bg_type_known (state_of (main env w s)).
Proof. exact (main_bg_type env w s). Qed.

Lemma X10_fresh_session_witness :
  bg_type_known (state_of (main env_failing local_path_widgets initial_state)).
Proof.
  apply (X10_main_keeps_background_type_known env_failing local_path_widgets initial_state).
  left. reflexivity.
Defined.

(** X11. After a run of [main], however it ends, the reminder flag is set
    exactly when the hour of the run is one of 9, 12, 15, 18, 21: only the
    reminder check at the start of the run writes it. *)
Theorem X11_main_flag_follows_the_hour
  (env : Env) (w : Widgets) (s : SessionState) :
  reminder_triggered (state_of (main env w s)) = Z_in (now_hour env) reminder_hours /\
  (Z_in (now_hour env) reminder_hours = true <->
   (now_hour env = 9 \/ now_hour env = 12 \/ now_hour env = 15 \/
    now_hour env = 18 \/ now_hour env = 21)%Z).
Proof.
  split; [|apply Z_in_reminder_hours].
  rewrite main_flag, check_and_show_reminder_state. reflexivity.
Qed.

(** ** Setting a background *)

(** X1. Setting a background from a URL sends exactly one request and
    reports success exactly when the answer is a response with status 200;
    on success the only change to the session state is the background type
    "faith" and one style is written; on any other status or an exception
    the session state is left exactly as it was and no style is written. *)
Theorem X1_url_background_succeeds_only_on_200
  (env : Env) (image_url faith_name : string) (s : SessionState) :
  let r := set_background_from_url env image_url faith_name s in
  let ok := is_200 (requests_get env image_url) in
  result_of r = Ok ok /\
  state_of r = (if ok then set_current_bg_type "faith" s else s) /\
  filter is_http_get (log_of r) = [HttpGet image_url] /\
  existsb is_css (log_of r) = ok /\
  existsb is_toast (log_of r) = false.
Proof.
  cbv zeta. unfold set_background_from_url, bind, emit, modify, ret, result_of, state_of, log_of.
  destruct (requests_get env image_url) as [code content ctype | e]; cbn [is_200].
  - destruct (code =? 200)%Z; cbn; repeat split; reflexivity.
  - cbn. repeat split; reflexivity.
Qed.

(** X2. Setting a background from a file opens exactly that one file and
    reports success exactly when it could be read; on success the only
    change to the session state is the background type "custom", and the
    style written carries one of the types image/jpeg, image/png and
    image/gif, whatever the extension; on failure the session state is left
    exactly as it was and no style is written. *)
Theorem X2_file_background_succeeds_only_when_read
  (env : Env) (image_path : string) (s : SessionState) :
  let r := set_background_from_file env image_path s in
  let ok := is_readable (open_rb env image_path) in
  result_of r = Ok ok /\
  state_of r = (if ok then set_current_bg_type "custom" s else s) /\
  filter is_open_read (log_of r) = [OpenRead image_path] /\
  existsb is_css (log_of r) = ok /\
  forall mime data,
    In (BackgroundCss mime data) (log_of r) ->
    mime = "image/jpeg" \/ mime = "image/png" \/ mime = "image/gif".
Proof.
  cbv zeta. unfold set_background_from_file, bind, emit, modify, ret, result_of, state_of, log_of.
  destruct (open_rb env image_path) as [bytes | e]; cbn [is_readable].
  - cbn -[String.eqb]. repeat split; try reflexivity.
    intros mime data [H | [H | []]]; [discriminate|]. injection H as <- _.
    destruct (_ || _); [auto|]. destruct (String.eqb _ ".png"); [auto|].
    destruct (String.eqb _ ".gif"); auto.
  - cbn. repeat split; try reflexivity.
    intros mime data [H | [H | []]]; discriminate.
Qed.

(** ** The sidebar and the Scripture BG button *)

Lemma dict_get_catalogue (key : string) :
  In key faith_keys ->
  exists faith_info,
    dict_get FAITH_BACKGROUNDS key = Some faith_info /\
    In (key, faith_info) FAITH_BACKGROUNDS.
Proof.
  intros Hin. unfold faith_keys, FAITH_BACKGROUNDS in Hin. cbn [map fst In] in Hin.
  repeat (destruct Hin as [<- | Hin];
          [eexists; split; [vm_compute; reflexivity | cbn; tauto]|]).
  contradiction.
Qed.

(** X3. Applying a scripture theme from the sidebar for a faith of the
    catalogue never fails on the lookup, sends exactly one request, for the
    image of that faith, and always raises the notification counter by one;
    the faith is stored in the preferences and the background type becomes
    "faith" exactly when the answer has status 200, otherwise both stay as
    they were; the custom path and the journal are never touched. *)
Theorem X3_sidebar_theme_stores_faith_only_on_success
  (env : Env) (w : Widgets) (s : SessionState) :
  bg_option w = "Scripture Theme" ->
  In (selected_faith w) faith_keys ->
  apply_scripture_btn w = true ->
  let r := show_background_settings env w s in
  exists faith_info,
    In (selected_faith w, faith_info) FAITH_BACKGROUNDS /\
    let ok := is_200 (requests_get env (url faith_info)) in
    result_of r = Ok tt /\
    filter is_http_get (log_of r) = [HttpGet (url faith_info)] /\
    notification_counter (state_of r) = (notification_counter s + 1)%Z /\
    user_preferences (state_of r) =
      (if ok then Prefs.mk (selected_faith w) (Prefs.favorite_path (user_preferences s))
       else user_preferences s) /\
    current_bg_type (state_of r) = (if ok then "faith" else current_bg_type s) /\
    custom_bg_path (state_of r) = custom_bg_path s /\
    user_data (state_of r) = user_data s.
Proof.
  intros Hopt Hsel Hbtn r. subst r.
  destruct (dict_get_catalogue _ Hsel) as [faith_info [Hget Hin]].
  exists faith_info. split; [exact Hin|]. cbv zeta.
  unfold show_background_settings. rewrite Hopt, Hget, Hbtn.
  unfold_script. cbn -[String.eqb Z.eqb Z.add].
  destruct (requests_get env (url faith_info)) as [code content ctype | e]; cbn [is_200].
  - destruct (code =? 200)%Z; cbn; repeat split; reflexivity.
  - cbn. repeat split; reflexivity.
Qed.

(** X4. An uploaded image is written to [temp_bg_<name>] and read back
    once; when it reads, that path is stored, the background type becomes
    "custom" and the counter goes up by one; when it does not, the stored
    custom path is cleared, and the background type and the counter stay as
    they were.  The preferences are never touched. *)
Lemma X3_buddhism_theme_witness :
  exists faith_info,
    In (selected_faith sidebar_scripture_widgets, faith_info) FAITH_BACKGROUNDS /\
    let r := show_background_settings (env_answering "") sidebar_scripture_widgets initial_state in
    let ok := is_200 (requests_get (env_answering "") (url faith_info)) in
    result_of r = Ok tt /\
    filter is_http_get (log_of r) = [HttpGet (url faith_info)] /\
    notification_counter (state_of r) = (notification_counter initial_state + 1)%Z /\
    user_preferences (state_of r) =
      (if ok
       then Prefs.mk (selected_faith sidebar_scripture_widgets)
              (Prefs.favorite_path (user_preferences initial_state))
       else user_preferences initial_state) /\
    current_bg_type (state_of r) = (if ok then "faith" else current_bg_type initial_state) /\
    custom_bg_path (state_of r) = custom_bg_path initial_state /\
    user_data (state_of r) = user_data initial_state.
Proof.
  apply (X3_sidebar_theme_stores_faith_only_on_success
           (env_answering "") sidebar_scripture_widgets initial_state).
  - reflexivity.
  - cbn. tauto.
  - reflexivity.
Defined.



(** X5. In the Local File Path branch a file is opened exactly when the
    path is non-empty, the button is pressed and the path exists; the
    background type becomes "custom" exactly when that file also reads;
    a path that does not exist gives only the "File not found" warning,
    clears the stored custom path and leaves the counter alone; with an
    empty path or the button not pressed nothing happens at all. *)
Theorem X5_local_path_is_read_only_when_it_exists
  (env : Env) (w : Widgets) (s : SessionState) :
  bg_option w = "Local File Path" ->
  let r := show_background_settings env w s in
  let asked := PyStr.truthy (local_path w) && load_local_btn w in
  let found := path_exists env (local_path w) in
  result_of r = Ok tt /\
  existsb is_open_read (log_of r) = asked && found /\
  existsb is_css (log_of r) = asked && found && is_readable (open_rb env (local_path w)) /\
  current_bg_type (state_of r) =
    (if asked && found && is_readable (open_rb env (local_path w))
     then "custom" else current_bg_type s) /\
  (if asked
   then (if found then True
         else custom_bg_path (state_of r) = None /\
              log_of r = [Warning ("File not found: " ++ local_path w)] /\
              notification_counter (state_of r) = notification_counter s)
   else r = (Ok tt, s, [])).
Proof.
  intros Hopt r asked found. subst r asked found.
  unfold show_background_settings. rewrite Hopt.
  cbn [String.eqb Ascii.eqb Bool.eqb].
  destruct (PyStr.truthy (local_path w) && load_local_btn w);
    [|cbn; repeat split; reflexivity].
  destruct (path_exists env (local_path w)).
  - unfold_script. cbn -[String.eqb Z.eqb Z.add String.append].
    destruct (open_rb env (local_path w)); cbn -[Z.add String.append];
      repeat split; reflexivity.
  - cbn. repeat split; reflexivity.
Qed.

Lemma X5_directory_path_witness :
  let r := show_background_settings env_failing local_path_widgets initial_state in
  result_of r = Ok tt /\
  existsb is_open_read (log_of r) = true /\
  existsb is_css (log_of r) = false /\
  current_bg_type (state_of r) = "default" /\
  True.
Proof.
  apply (X5_local_path_is_read_only_when_it_exists env_failing local_path_widgets initial_state).
  reflexivity.
Defined.

(** X6. The Scripture BG button of the main form always runs to its end,
    sends at most one request (the loop breaks at the first matching key
    even if its image fails to load), shows a toast and raises the counter
    by one exactly when a background was applied, and never changes the
    preferences, the custom path or the journal. *)
Theorem X6_scripture_button_fetches_once_and_keeps_preferences
  (env : Env) (w : Widgets) (s : SessionState) :
  let r := main_scripture_bg env w s in
  let applied := existsb is_css (log_of r) in
  result_of r = Ok tt /\
  length (filter is_http_get (log_of r)) <= 1 /\
  existsb is_toast (log_of r) = applied /\
  notification_counter (state_of r) = (notification_counter s + (if applied then 1 else 0))%Z /\
  current_bg_type (state_of r) = (if applied then "faith" else current_bg_type s) /\
  user_preferences (state_of r) = user_preferences s /\
  custom_bg_path (state_of r) = custom_bg_path s /\
  user_data (state_of r) = user_data s.
Proof.
  cbv zeta. rewrite main_scripture_bg_unfold.
  destruct (auto_bg w && PyStr.truthy (faith w)); [|cbn; repeat split; auto; lia].
  destruct (resolveByFreeText (faith w)) as [item|]; [|cbn; repeat split; auto; lia].
  unfold_script. cbn -[String.eqb Z.eqb Z.add String.append].
  destruct (requests_get env (url (snd item))) as [code content ctype | e];
    [destruct (code =? 200)%Z|];
    cbn -[Z.add String.append]; repeat split; auto; lia.
Qed.

(** ** Reminder checks over time, resolution, history *)

Lemma reminder_trace_edges (env : Env) (hours : list Z) (s : SessionState) :
  fst (reminder_trace env hours s) = edge_fires (reminder_triggered s) hours /\
  reminder_triggered (snd (reminder_trace env hours s)) =
    fold_left (fun _ h => Z_in h reminder_hours) hours (reminder_triggered s).
Proof.
  revert s; induction hours as [|h rest IH]; intros s; [split; reflexivity|].
  cbn [reminder_trace edge_fires fold_left].
  specialize (IH (state_of (check_and_show_reminder (at_hour env h) s))).
  destruct (reminder_trace env rest (state_of (check_and_show_reminder (at_hour env h) s)))
    as [fires s'].
  cbn [fst snd] in *. destruct IH as [IHf IHs].
  rewrite check_and_show_reminder_state in IHf, IHs.
  rewrite check_and_show_reminder_fired. cbn [at_hour now_hour] in *.
  cbn [set_reminder_triggered reminder_triggered] in IHf, IHs.
  rewrite IHf, IHs. split; reflexivity.
Qed.

Lemma edge_fires_scheduled (hours : list Z) :
  Forall (fun h => Z_in h reminder_hours = true) hours ->
  edge_fires true hours = repeat false (length hours).
Proof.
  induction 1 as [|h rest Hh _ IH]; [reflexivity|].
  cbn [edge_fires length repeat]. rewrite Hh, IH. reflexivity.
Qed.

(** X12. Over any sequence of reminder checks, a check shows a reminder
    exactly when its hour is in the schedule and the hour of the check
    before it was not (for the first check: the flag was not set); the flag
    after the sequence tells whether the last hour was in the schedule. *)
Theorem X12_reminders_fire_on_entering_the_schedule
  (env : Env) (hours : list Z) (s : SessionState) :
  fst (reminder_trace env hours s) = edge_fires (reminder_triggered s) hours /\
  reminder_triggered (snd (reminder_trace env hours s)) =
    fold_left (fun _ h => Z_in h reminder_hours) hours (reminder_triggered s).
Proof. apply reminder_trace_edges. Qed.

(** X13. Over a sequence of checks whose hours are all in the schedule,
    also when they are different hours, exactly one reminder is shown when
    the flag was clear at the start and the sequence is not empty, and none
    otherwise. *)
Theorem X13_one_reminder_per_stay_in_the_schedule
  (env : Env) (hours : list Z) (s : SessionState) :
  Forall (fun h => Z_in h reminder_hours = true) hours ->
  count_occ Bool.bool_dec (fst (reminder_trace env hours s)) true =
    (if reminder_triggered s then 0 else Nat.min 1 (length hours)).
Proof.
  intros Hall. destruct (reminder_trace_edges env hours s) as [-> _].
  destruct (reminder_triggered s).
  - rewrite (edge_fires_scheduled hours Hall).
    apply count_occ_repeat_neq. discriminate.
  - destruct Hall as [|h rest Hh Hrest]; [reflexivity|].
    cbn [edge_fires length]. rewrite Hh, (edge_fires_scheduled rest Hrest).
    cbn [andb negb]. rewrite count_occ_cons_eq by reflexivity.
    rewrite count_occ_repeat_neq by discriminate. reflexivity.
Qed.

Lemma X13_nine_nine_twelve_witness :
  count_occ Bool.bool_dec (fst (reminder_trace env_failing [9; 9; 12]%Z initial_state)) true = 1.
Proof.
  apply (X13_one_reminder_per_stay_in_the_schedule env_failing [9; 9; 12]%Z initial_state).
  repeat constructor.
Defined.

Lemma resolve_by_lower (f g : string) :
  PyStr.lower f = PyStr.lower g -> resolveByFreeText f = resolveByFreeText g.
Proof.
  intros Hlow. unfold resolveByFreeText, faith_matches. rewrite Hlow. reflexivity.
Qed.

(** X14. A typed faith that equals one of the nine catalogue keys up to
    letter case resolves to the item of that very key: no earlier key
    captures it. *)
Theorem X14_canonical_key_resolves_to_itself (f : string) (item : string * FaithInfo) :
  In item FAITH_BACKGROUNDS ->
  PyStr.lower f = PyStr.lower (fst item) ->
  resolveByFreeText f = Some item.
Proof.
  intros Hin Hlow. rewrite (resolve_by_lower f (fst item) Hlow).
  unfold FAITH_BACKGROUNDS in Hin. cbn [In] in Hin.
  repeat (destruct Hin as [<- | Hin]; [vm_compute; reflexivity|]).
  contradiction.
Qed.

Lemma X14_upper_case_witness :
  resolveByFreeText "BUDDHISM" =
  Some ("Buddhism",
        mkFaithInfo
          "https://images.unsplash.com/photo-1465101162946-4377e57745c3?auto=format&fit=crop&w=1200&q=80"
          "☸️ Peaceful Zen Garden").
Proof.
  apply (X14_canonical_key_resolves_to_itself "BUDDHISM").
  - cbn. tauto.
  - reflexivity.
Defined.

Lemma expanders_of_entries (l : list Entry.t) :
  length (filter is_expander (flat_map entry_events l)) = length l.
Proof. induction l as [|e l IH]; [reflexivity | cbn; rewrite IH; reflexivity]. Qed.

(** X15. The history panel opens exactly one expander per stored entry
    and never calls the model; for an empty journal it shows only the
    "journey begins" note, otherwise it starts with the total count. *)
Theorem X15_history_shows_each_entry_once (s : SessionState) :
  length (filter is_expander (log_of (show_user_history s))) = length (user_data s) /\
  existsb is_generate (log_of (show_user_history s)) = false /\
  (match user_data s with
   | [] => log_of (show_user_history s) = [Info "Your spiritual journey begins now... 🌱"]
   | _ :: _ =>
       hd_error (log_of (show_user_history s)) =
       Some (Write ("**Total Sessions:** " ++ str_of_Z (Z.of_nat (length (user_data s)))))
   end).
Proof.
  split; [|split; [apply silent_show_user_history|]];
    rewrite show_user_history_run; unfold log_of; cbn [snd];
    destruct (user_data s) as [|e l] eqn:Hdata; try reflexivity.
  cbn [filter is_expander]. rewrite expanders_of_entries, length_rev. reflexivity.
Qed.

(** ** How the request, the history and the footer fit together *)

(** X16. After a guidance request that succeeded, the most-recent-first
    view is the new entry followed by the former view, and the history
    panel shows the former count plus one, then the new entry, then the
    former entries. *)
Theorem X16_saved_entry_heads_the_history
  (env : Env) (w : Widgets) (s : SessionState) (T : string) :
  seek_guidance w = true ->
  faith w <> "" ->
  trouble w <> "" ->
  generate_content env (build_prompt (faith w) (path w) (trouble w)) = GenText T ->
  let r := main_seek_guidance env w s in
  let entry := Entry.mk (faith w) (path w) (trouble w) T (now_isoformat env) in
  viewMostRecentFirst (state_of r) = entry :: viewMostRecentFirst s /\
  log_of (show_user_history (state_of r)) =
    Write ("**Total Sessions:** " ++ str_of_Z (Z.of_nat (length (user_data s) + 1)))
    :: (entry_events entry ++ flat_map entry_events (viewMostRecentFirst s))%list.
Proof.
  intros Hseek Hfaith Htrouble Hgen r entry. subst r entry.
  rewrite (main_seek_guidance_filled env w s Hseek Hfaith Htrouble).
  cbv zeta. rewrite Hgen. unfold viewMostRecentFirst, state_of. cbn [fst snd].
  rewrite show_user_history_run, !reversed_to_list. unfold log_of. cbn [snd].
  assert (Hdata : forall s1, user_data s1 = user_data s ->
            user_data (set_notification_counter (notification_counter s1 + 1)
                         (append_entry
                            (Entry.mk (faith w) (path w) (trouble w) T (now_isoformat env)) s1))
            = (user_data s ++
               [Entry.mk (faith w) (path w) (trouble w) T (now_isoformat env)])%list).
  { intros s1 H1. cbn. rewrite H1. reflexivity. }
  rewrite (Hdata (if save_prefs w then set_pref_faith (faith w) s else s))
    by (destruct (save_prefs w); reflexivity).
  rewrite rev_app_distr. cbn [rev app]. split; [reflexivity|].
  destruct (user_data s ++ _)%list eqn:Happ.
  - destruct (user_data s); discriminate.
  - rewrite <- Happ, length_app. cbn [length flat_map]. reflexivity.
Qed.

Lemma X16_scenario_witness :
  let r := main_seek_guidance (env_answering "Be still.") scenario_widgets initial_state in
  let entry := Entry.mk "Buddhism" "Seek Purpose" "I feel lost" "Be still." "2025-03-01T10:15:00" in
  viewMostRecentFirst (state_of r) = entry :: viewMostRecentFirst initial_state /\
  log_of (show_user_history (state_of r)) =
    Write ("**Total Sessions:** " ++ str_of_Z (Z.of_nat (length (user_data initial_state) + 1)))
    :: (entry_events entry ++ flat_map entry_events (viewMostRecentFirst initial_state))%list.
Proof.
  apply (X16_saved_entry_heads_the_history
           (env_answering "Be still.") scenario_widgets initial_state "Be still.").
  - reflexivity.
  - discriminate.
  - discriminate.
  - reflexivity.
Defined.

Lemma bind_ends_with {A} (footer : SessionState -> Event) (m : M A) (k : A -> M unit) :
  (forall a s, result_of (k a s) = Ok tt ->
               exists log0, log_of (k a s) = (log0 ++ [footer (state_of (k a s))])%list) ->
  forall s, result_of (bind m k s) = Ok tt ->
            exists log0, log_of (bind m k s) = (log0 ++ [footer (state_of (bind m k s))])%list.
Proof.
  intros Hk s. unfold bind, result_of, log_of, state_of.
  destruct (m s) as [[[a|why] s1] log1]; cbn [fst snd]; [|discriminate].
  specialize (Hk a s1). unfold result_of, log_of, state_of in Hk.
  destruct (k a s1) as [[r2 s2] log2]. cbn [fst snd] in *.
  intros Hok. destruct (Hk Hok) as [log0 ->]. exists (log1 ++ log0)%list.
  rewrite app_assoc. reflexivity.
Qed.

(** X17. A run of [main] that reaches its end finishes with the footer
    caption, and the caption reports the journal size and the background
    type of the state the run ends in, so an entry saved in the same run is
    counted. *)
Theorem X17_footer_reports_the_state_at_the_end
  (env : Env) (w : Widgets) (s : SessionState) :
  result_of (main env w s) = Ok tt ->
  exists log0,
    log_of (main env w s) =
    (log0 ++
     [Caption ("🌍 Session active | 📊 Queries: "
               ++ str_of_Z (Z.of_nat (length (user_data (state_of (main env w s)))))
               ++ " | Background: " ++ current_bg_type (state_of (main env w s)))])%list.
Proof.
  revert s. unfold main.
  do 11 (apply bind_ends_with
           with (footer := fun s0 =>
                   Caption ("🌍 Session active | 📊 Queries: "
                            ++ str_of_Z (Z.of_nat (length (user_data s0)))
                            ++ " | Background: " ++ current_bg_type s0)); intros ?).
  intros s _. exists []. reflexivity.
Qed.

Lemma X17_scenario_witness :
  exists log0,
    log_of (main (env_answering "Be still.") scenario_widgets initial_state) =
    (log0 ++
     [Caption ("🌍 Session active | 📊 Queries: "
               ++ str_of_Z (Z.of_nat (length (user_data
                    (state_of (main (env_answering "Be still.") scenario_widgets initial_state)))))
               ++ " | Background: "
               ++ current_bg_type
                    (state_of (main (env_answering "Be still.") scenario_widgets initial_state)))])%list.
Proof.
  apply (X17_footer_reports_the_state_at_the_end
           (env_answering "Be still.") scenario_widgets initial_state).
  vm_compute. reflexivity.
Defined.
